(** * The executor command runner: Firecracker formatting, setup and teardown

    A shallow embedding of the Go package [command] of the executor
    (the Firecracker half of the command runner and the [Runner]
    interface with its two implementations), followed by the properties
    proved about it.

    Go strings are byte strings and are modelled by [string]; slices of
    strings by [list string]; a nil error by [None]. *)

From Stdlib Require Import String Ascii List Bool Arith ZArith Lia.
From Stdlib Require Import Permutation Sorted DecimalString.
Import ListNotations.

Open Scope string_scope.
Open Scope list_scope.

(** ** Go strings *)

Module GoString.

(** [strings.Join(elems, sep)]. *)
Fixpoint Join (elems : list string) (sep : string) : string :=
  match elems with
  | [] => ""
  | [e] => e
  | e :: rest => e ++ sep ++ Join rest sep
  end.

(** [s[:n]], for [n <= len(s)]. *)
Fixpoint take (n : nat) (s : string) : string :=
  match n, s with
  | S n', String c s' => String c (take n' s')
  | _, _ => ""
  end.

(** [strings.HasPrefix(s, p)]. *)
Fixpoint HasPrefix (s p : string) : bool :=
  match p, s with
  | "", _ => true
  | String a p', String b s' => Ascii.eqb a b && HasPrefix s' p'
  | String _ _, "" => false
  end.

(** [strings.Contains(s, sub)]. *)
Fixpoint Contains (s sub : string) : bool :=
  HasPrefix s sub ||
  match s with
  | "" => false
  | String _ s' => Contains s' sub
  end.

(** [fmt.Sprintf("%s:%s", a, b)]. *)
Definition colon (a b : string) : string := a ++ ":" ++ b.

(** [strconv.Itoa]. *)
Definition Itoa (n : Z) : string := NilZero.string_of_int (Z.to_int n).

End GoString.

(** ** Regular expressions

    The fragment of Go's [regexp] syntax that [imagePattern] uses, with
    the semantics [regexp] documents for it: among the matches that begin
    leftmost, the one a backtracking search finds first.  The classes of
    [imagePattern] are defined by ASCII characters only, so matching byte
    by byte consumes the same text as matching rune by rune. *)

Module Regexp.

Inductive regex : Type :=
| Lit (s : string)                    (* literal text *)
| Class (p : ascii -> bool)           (* one character of a class *)
| Plus (p : ascii -> bool)            (* [class]+, greedy *)
| Rep (n : nat) (p : ascii -> bool)   (* [class]{n} *)
| Seq (r1 r2 : regex)
| Opt (r : regex)                     (* (?:r)?, greedy *)
| Group (i : nat) (r : regex).        (* capturing group number i *)

(** The text captured so far, by group number. *)
Definition captures : Type := nat -> option string.

Definition no_captures : captures := fun _ => None.

Definition capture (i : nat) (s : string) (c : captures) : captures :=
  fun j => if Nat.eqb j i then Some s else c j.

(** A finished match: the text left after it, and its captures. *)
Definition found : Type := (string * captures)%type.

Definition orelse (a : option found) (b : option found) : option found :=
  match a with
  | Some _ => a
  | None => b
  end.

Fixpoint match_lit (l s : string) : option string :=
  match l, s with
  | "", _ => Some s
  | String a l', String b s' =>
      if Ascii.eqb a b then match_lit l' s' else None
  | String _ _, "" => None
  end.

(** Zero or more characters of [p], longest first. *)
Fixpoint match_many (p : ascii -> bool) (s : string)
         (k : string -> option found) : option found :=
  match s with
  | String a s' =>
      if p a then orelse (match_many p s' k) (k s) else k s
  | "" => k s
  end.

Fixpoint match_rep (n : nat) (p : ascii -> bool) (s : string)
         (k : string -> option found) : option found :=
  match n with
  | O => k s
  | S n' =>
      match s with
      | String a s' => if p a then match_rep n' p s' k else None
      | "" => None
      end
  end.

(** [run r s c k]: match [r] at the start of [s], then continue with
    [k] on the rest; alternatives are tried in priority order. *)
Fixpoint run (r : regex) (s : string) (c : captures)
         (k : string -> captures -> option found) : option found :=
  match r with
  | Lit l =>
      match match_lit l s with
      | Some s' => k s' c
      | None => None
      end
  | Class p =>
      match s with
      | String a s' => if p a then k s' c else None
      | "" => None
      end
  | Plus p =>
      match s with
      | String a s' =>
          if p a then match_many p s' (fun s'' => k s'' c) else None
      | "" => None
      end
  | Rep n p => match_rep n p s (fun s' => k s' c)
  | Seq r1 r2 => run r1 s c (fun s' c' => run r2 s' c' k)
  | Opt r1 => orelse (run r1 s c k) (k s c)
  | Group i r1 =>
      run r1 s c
          (fun s' c' =>
             k s' (capture i (GoString.take (String.length s - String.length s') s) c'))
  end.

(** The continuation that ends a match. *)
Definition final : string -> captures -> option found :=
  fun s c => Some (s, c).

Definition match_here (r : regex) (s : string) : option found :=
  run r s no_captures final.

(** The leftmost match of [r] in [s]: the text from where it begins,
    with what [match_here] found there. *)
Fixpoint search (r : regex) (s : string) : option (string * found) :=
  match match_here r s with
  | Some f => Some (s, f)
  | None =>
      match s with
      | String _ s' => search r s'
      | "" => None
      end
  end.

Definition group_text (c : captures) (i : nat) : string :=
  match c i with
  | Some t => t
  | None => ""
  end.

(** [FindStringSubmatch] for a pattern with [n] capturing groups: the
    text of the leftmost match followed by the text of groups 1..n
    (empty for a group that took no part), or nil when nothing
    matches. *)
Definition FindStringSubmatch (n : nat) (r : regex) (s : string)
  : list string :=
  match search r s with
  | Some (from, (rest, c)) =>
      GoString.take (String.length from - String.length rest) from
        :: map (group_text c) (seq 1 n)
  | None => []
  end.

End Regexp.

(** ** Image references *)

Definition is_colon_or_at (a : ascii) : bool :=
  Ascii.eqb a ":" || Ascii.eqb a "@".

Definition is_at (a : ascii) : bool := Ascii.eqb a "@".

(** [a-z0-9] *)
Definition is_lower_alnum (a : ascii) : bool :=
  let n := nat_of_ascii a in
  (Nat.leb 97 n && Nat.leb n 122) || (Nat.leb 48 n && Nat.leb n 57).

(** [([^:@]+)(?::([^@]+))?(?:@sha256:([a-z0-9]{64}))?] *)
Definition imagePattern : Regexp.regex :=
  Regexp.Seq
    (Regexp.Group 1 (Regexp.Plus (fun a => negb (is_colon_or_at a))))
    (Regexp.Seq
       (Regexp.Opt
          (Regexp.Seq (Regexp.Lit ":")
                      (Regexp.Group 2 (Regexp.Plus (fun a => negb (is_at a))))))
       (Regexp.Opt
          (Regexp.Seq (Regexp.Lit "@sha256:")
                      (Regexp.Group 3 (Regexp.Rep 64 is_lower_alnum))))).

Definition imagePattern_groups : nat := 3.

(** [sanitizeImage] removes the sha256 digest from an image reference. *)
Definition sanitizeImage (image : string) : string :=
  let matches :=
    Regexp.FindStringSubmatch imagePattern_groups imagePattern image in
  if Nat.eqb (List.length matches) 4 then
    if String.eqb (nth 2 matches "") "" then nth 1 matches ""
    else GoString.colon (nth 1 matches "") (nth 2 matches "")
  else image.

(** ** The data model *)

(** [*observation.Operation], an opaque tracing handle. *)
Record Operation : Type := { operation_name : string }.

(** [Logger], an opaque handle. *)
Record Logger : Type := { logger_name : string }.

Module CommandSpec.
Record t : Type := mk {
  Key : string;
  Image : string;
  ScriptPath : string;
  Command : list string;
  Dir : string;
  Env : list string;
  Operation : Operation
}.
End CommandSpec.

Module ResourceOptions.
Record t : Type := mk {
  NumCPUs : Z;
  Memory : string;
  DiskSpace : string;
  DockerHostMountPath : string
}.
End ResourceOptions.

Module FirecrackerOptions.
Record t : Type := mk {
  Enabled : bool;
  Image : string;
  KernelImage : string;
  VMStartupScriptPath : string;
  DockerRegistryMirrorAddress : string
}.
End FirecrackerOptions.

Module Options.
Record t : Type := mk {
  ExecutorName : string;
  FirecrackerOptions : FirecrackerOptions.t;
  ResourceOptions : ResourceOptions.t
}.
End Options.

(** The struct [command], which is declared outside src/: the fields are
    those its uses in src/ read and write. *)
Module command.
Record t : Type := mk {
  Key : string;
  Command : list string;
  Dir : string;
  Env : list string;
  Operation : Operation
}.
End command.

(** The fields of [Operations] that the Firecracker runner reads. *)
Module Operations.
Record t : Type := mk {
  SetupFirecrackerStart : Operation;
  SetupStartupScript : Operation;
  TeardownFirecrackerRemove : Operation
}.
End Operations.

(** ** Errors *)

#[warnings="-register-all"]
Inductive error : Type :=
| ErrNew (msg : string)                  (* a leaf error, by its message *)
| ErrWrap (cause : error) (msg : string) (* errors.Wrap(cause, msg) *)
| ErrMulti (errs : list error).          (* a MultiError *)

(** [errors.Wrap]; wrapping nil gives nil. *)
Definition errors_Wrap (err : option error) (msg : string) : option error :=
  match err with
  | Some e => Some (ErrWrap e msg)
  | None => None
  end.

Definition errors_of (err : option error) : list error :=
  match err with
  | None => []
  | Some (ErrMulti l) => l
  | Some e => [e]
  end.

(** Modelled from the spec: [errors.Append] is not under src/, only its
    tests are.  By them, appending nil to nil is nil, and the non-nil
    errors are otherwise collected, in order, in one MultiError. *)
Definition errors_Append (err1 err2 : option error) : option error :=
  match errors_of err1 ++ errors_of err2 with
  | [] => None
  | l => Some (ErrMulti l)
  end.

(** ** Helpers of the package that src/ does not hold *)

Inductive flat_arg : Type :=
| str (s : string)
| strs (l : list string).

(** Modelled from the spec: [flatten] is not under src/.  Section 6 gives
    each invocation as the flat sequence of its tokens: a string argument
    is one token, a slice argument contributes its elements, in order. *)
Fixpoint flatten (values : list flat_arg) : list string :=
  match values with
  | [] => []
  | str s :: rest => s :: flatten rest
  | strs l :: rest => l ++ flatten rest
  end.

(** What the package calls and src/ does not define.  The properties
    below hold for every implementation of these. *)
Class Collaborators : Type := {
  (** [shellquote.Join]: quote each word for the shell, join by spaces. *)
  shellquote_Join : list string -> string;
  (** [quoteEnv]: shell-quote the value of each [NAME=value]. *)
  quoteEnv : list string -> list string;
  (** [intersperse flag values]: the flag tokens for [values]. *)
  intersperse : string -> list string -> list string;
  (** [path.Join]. *)
  path_Join : list string -> string;
  (** [filepath.Join] of two elements. *)
  filepath_Join : string -> string -> string;
  (** The branch of [formatRawOrDockerCommand] for a spec with an image:
      the one-shot container invocation. *)
  formatDockerCommand : CommandSpec.t -> string -> Options.t -> command.t
}.

(** ** Sorting *)

Fixpoint insert_sorted (x : string) (l : list string) : list string :=
  match l with
  | [] => [x]
  | y :: l' => if String.leb x y then x :: l else y :: insert_sorted x l'
  end.

(** [sort.Strings]: ascending in the byte-wise order of Go strings.  The
    order is total and antisymmetric, so every sorting algorithm returns
    this list. *)
Fixpoint sort_Strings (l : list string) : list string :=
  match l with
  | [] => []
  | x :: l' => insert_sorted x (sort_Strings l')
  end.

(** The order [sort.Strings] sorts by. *)
Definition string_le (s t : string) : Prop := String.leb s t = true.

(** ** JSON *)

Definition dquote : ascii := ascii_of_nat 34.
Definition backslash : ascii := ascii_of_nat 92.

Definition hex_digit (n : nat) : ascii :=
  nth n (list_ascii_of_string "0123456789abcdef") "0"%char.

Definition chars (l : list ascii) : string := string_of_list_ascii l.

Definition in_range (lo hi : nat) (a : ascii) : bool :=
  Nat.leb lo (nat_of_ascii a) && Nat.leb (nat_of_ascii a) hi.

Definition is_cont : ascii -> bool := in_range 128 191.

(** The length of the UTF-8 sequence that starts [s], or 0 when [s]
    does not start with a valid one. *)
Definition utf8_len (s : string) : nat :=
  match s with
  | String a (String b rest) =>
      if in_range 194 223 a then (if is_cont b then 2 else 0)
      else
        match rest with
        | String c rest' =>
            let second3 :=
              if in_range 224 224 a then in_range 160 191 b
              else if in_range 237 237 a then in_range 128 159 b
              else if in_range 225 239 a then is_cont b
              else false in
            if second3 then (if is_cont c then 3 else 0)
            else
              match rest' with
              | String d _ =>
                  let second4 :=
                    if in_range 240 240 a then in_range 144 191 b
                    else if in_range 241 243 a then is_cont b
                    else if in_range 244 244 a then in_range 128 143 b
                    else false in
                  if second4 && is_cont c && is_cont d then 4 else 0
              | "" => 0
              end
        | "" => 0
        end
  | _ => 0
  end.

(** One byte below 0x80 inside a JSON string, as [encoding/json] writes
    it with HTML escaping on. *)
Definition json_ascii (a : ascii) : string :=
  let n := nat_of_ascii a in
  if Ascii.eqb a dquote || Ascii.eqb a backslash then chars [backslash; a]
  else if Nat.eqb n 10 then chars [backslash; "n"%char]
  else if Nat.eqb n 13 then chars [backslash; "r"%char]
  else if Nat.eqb n 9 then chars [backslash; "t"%char]
  else if Nat.ltb n 32 || Ascii.eqb a "<" || Ascii.eqb a ">" || Ascii.eqb a "&"
  then chars [backslash; "u"%char; "0"%char; "0"%char;
              hex_digit (n / 16); hex_digit (n mod 16)]
  else chars [a].

(** The body of a JSON string.  [skip] counts the bytes still to pass of
    a sequence already dealt with; [copy] says whether they are written. *)
Fixpoint json_body (s : string) (skip : nat) (copy : bool) : string :=
  match s with
  | "" => ""
  | String a s' =>
      match skip with
      | S skip' =>
          (if copy then chars [a] else "") ++ json_body s' skip' copy
      | O =>
          if Nat.ltb (nat_of_ascii a) 128 then json_ascii a ++ json_body s' 0 true
          else
            match utf8_len s with
            | O => chars [backslash] ++ "ufffd" ++ json_body s' 0 true
            | S n =>
                if GoString.HasPrefix s (chars [ascii_of_nat 226; ascii_of_nat 128; ascii_of_nat 168])
                then chars [backslash] ++ "u2028" ++ json_body s' n false
                else if GoString.HasPrefix s (chars [ascii_of_nat 226; ascii_of_nat 128; ascii_of_nat 169])
                then chars [backslash] ++ "u2029" ++ json_body s' n false
                else chars [a] ++ json_body s' n true
            end
      end
  end.

Definition json_string (s : string) : string :=
  chars [dquote] ++ json_body s 0 true ++ chars [dquote].

Definition json_strings (l : list string) : string :=
  "[" ++ GoString.Join (map json_string l) "," ++ "]".

(** [dockerDaemonConfig] marshals into a valid docker daemon config. *)
Record dockerDaemonConfig : Type := { RegistryMirrors : list string }.

(** [json.Marshal] of a [dockerDaemonConfig]: one field, by its tag
    [registry-mirrors]; marshalling strings does not fail. *)
Definition json_Marshal (c : dockerDaemonConfig) : string * option error :=
  (("{" ++ json_string "registry-mirrors" ++ ":"
        ++ json_strings (RegistryMirrors c) ++ "}")%string,
   None).

(** ** The host: files, subprocesses and the log *)

Inductive log_value : Type :=
| LogString (s : string)
| LogError (e : option error).

(** A request made to the host. *)
Inductive call : Type :=
| OsMkdirTemp (dir pattern : string)
| OsCreate (name : string)
| FileClose (name : string)
| OsWriteFile (name data : string) (perm : N)
| OsRemoveAll (path : string)
| RunCommandCall (c : command.t) (logger : Logger)   (* runCommand *)
| Log15Error (msg : string) (ctx : list (string * log_value)).

(** The host answers each request in view of the requests made before
    it: the error it returns, and the name it gives a new temporary
    directory. *)
Record Host : Type := {
  outcome : list call -> call -> option error;
  tempname : list call -> string
}.

(** A computation reads and extends the history of requests. *)
Definition M (A : Type) : Type := list call -> A * list call.

Definition ret {A : Type} (a : A) : M A := fun h => (a, h).

Definition bind {A B : Type} (m : M A) (f : A -> M B) : M B :=
  fun h => let (a, h') := m h in f a h'.

Declare Scope host_scope.
Delimit Scope host_scope with host.
Notation "x <- m ;; k" := (bind m (fun x => k))
  (at level 61, m at next level, right associativity) : host_scope.
Notation "m ;;; k" := (bind m (fun _ => k))
  (at level 61, right associativity) : host_scope.

(** [os.ModePerm], 0777. *)
Definition os_ModePerm : N := 511.

(** [commandRunner] *)
Class commandRunner : Type := {
  RunCommand : command.t -> Logger -> M (option error)
}.

Definition firecrackerContainerDir : string := "/work".

Definition dockerDaemonConfigFilename : string := "docker-daemon.json".

Section Package.

Context {collaborators : Collaborators}.
Variable host : Host.

Definition perform (c : call) : M (option error) :=
  fun h => (outcome host h c, h ++ [c]).

(** [log15.Error]; it returns nothing. *)
Definition log15_Error (msg : string) (ctx : list (string * log_value))
  : M unit :=
  fun h => (tt, h ++ [Log15Error msg ctx]).

(** [os.MkdirTemp] *)
Definition os_MkdirTemp (dir pattern : string) : M (string * option error) :=
  fun h =>
    match outcome host h (OsMkdirTemp dir pattern) with
    | None => ((tempname host h, None), h ++ [OsMkdirTemp dir pattern])
    | Some e => (("", Some e), h ++ [OsMkdirTemp dir pattern])
    end.

(** Modelled from the spec: [runCommand] is not under src/.  Section 6: the
    subprocess-execution primitive, which is given the command and returns
    the error of the execution; here it is a request to the host. *)
Definition runCommand (c : command.t) (logger : Logger) : M (option error) :=
  perform (RunCommandCall c logger).

(** Modelled from the spec: [formatRawOrDockerCommand] is not under src/.
    Section 4.2: for a specification without an image, the direct
    argument list, that is the command tokens, in the working directory
    (the directory of the specification taken from the base directory),
    with the declared environment left to the child process; for a
    specification with an image, the container invocation. *)
Definition formatRawOrDockerCommand (spec : CommandSpec.t) (dir : string)
           (options : Options.t) : command.t :=
  if String.eqb (CommandSpec.Image spec) "" then
    {| command.Key := CommandSpec.Key spec;
       command.Command := CommandSpec.Command spec;
       command.Dir := filepath_Join dir (CommandSpec.Dir spec);
       command.Env := CommandSpec.Env spec;
       command.Operation := CommandSpec.Operation spec |}
  else formatDockerCommand spec dir options.

(** [formatFirecrackerCommand] constructs the command to run on the host
    via a Firecracker virtual machine in order to invoke the given spec. *)
Definition formatFirecrackerCommand (spec : CommandSpec.t) (name : string)
           (options : Options.t) : command.t :=
  let rawOrDockerCommand :=
    formatRawOrDockerCommand spec firecrackerContainerDir options in
  let innerCommand := shellquote_Join (command.Command rawOrDockerCommand) in
  let innerCommand :=
    if Nat.ltb 0 (List.length (command.Env rawOrDockerCommand)) then
      let quotedEnv := quoteEnv (command.Env rawOrDockerCommand) in
      (GoString.Join quotedEnv " " ++ " " ++ innerCommand)%string
    else innerCommand in
  let innerCommand :=
    if negb (String.eqb (command.Dir rawOrDockerCommand) "") then
      ("cd " ++ command.Dir rawOrDockerCommand ++ " && " ++ innerCommand)%string
    else innerCommand in
  {| command.Key := CommandSpec.Key spec;
     command.Command := ["ignite"; "exec"; name; "--"; innerCommand];
     command.Dir := "";
     command.Env := [];
     command.Operation := CommandSpec.Operation spec |}.

Definition newDockerDaemonConfig (tmpDir mirrorAddress : string)
  : M (string * option error) :=
  (let name := path_Join [tmpDir; dockerDaemonConfigFilename] in
   err <- perform (OsCreate name) ;;
   match err with
   | Some _ =>
       ret ("", errors_Wrap err "creating temp file for docker daemon config")
   | None =>
       (* from here on, the deferred function closes the file and
          appends the error of closing to the returned error *)
       let daemonConfigFile := name in
       let (c, err) :=
         json_Marshal {| RegistryMirrors := [mirrorAddress] |} in
       res <-
         match err with
         | Some _ =>
             ret (daemonConfigFile,
                  errors_Wrap err "marshalling docker daemon config")
         | None =>
             err <- perform (OsWriteFile daemonConfigFile c os_ModePerm) ;;
             ret (daemonConfigFile, err)
         end ;;
       closeErr <- perform (FileClose name) ;;
       ret (fst res, errors_Append (snd res) closeErr)
   end)%host.

Definition firecrackerResourceFlags (options : ResourceOptions.t)
  : list string :=
  ["--cpus"; GoString.Itoa (ResourceOptions.NumCPUs options);
   "--memory"; ResourceOptions.Memory options;
   "--size"; ResourceOptions.DiskSpace options].

(** The pairs [firecrackerCopyfileFlags] collects, before it sorts. *)
Definition copyfiles (vmStartupScriptPath daemonConfigFile : string)
  : list string :=
  (if negb (String.eqb vmStartupScriptPath "")
   then [GoString.colon vmStartupScriptPath vmStartupScriptPath]
   else [])
  ++ (if negb (String.eqb daemonConfigFile "")
      then [GoString.colon daemonConfigFile "/etc/docker/daemon.json"]
      else []).

Definition firecrackerCopyfileFlags
           (vmStartupScriptPath daemonConfigFile : string) : list string :=
  let copyfiles := copyfiles vmStartupScriptPath daemonConfigFile in
  let copyfiles := sort_Strings copyfiles in
  intersperse "--copy-files" copyfiles.

Definition firecrackerVolumeFlags
           (workspaceDevice firecrackerContainerDir : string) : list string :=
  ["--volumes"; GoString.colon workspaceDevice firecrackerContainerDir].

(** The command with which [setupFirecracker] starts the VM. *)
Definition startCommand (name workspaceDevice daemonConfigFile : string)
           (options : Options.t) (operations : Operations.t) : command.t :=
  let fo := Options.FirecrackerOptions options in
  {| command.Key := "setup.firecracker.start";
     command.Command :=
       flatten
         [str "ignite"; str "run";
          str "--runtime"; str "docker";
          str "--network-plugin"; str "cni";
          strs (firecrackerResourceFlags (Options.ResourceOptions options));
          strs (firecrackerCopyfileFlags
                  (FirecrackerOptions.VMStartupScriptPath fo) daemonConfigFile);
          strs (firecrackerVolumeFlags workspaceDevice firecrackerContainerDir);
          str "--ssh";
          str "--name"; str name;
          str "--kernel-image";
          str (sanitizeImage (FirecrackerOptions.KernelImage fo));
          str (sanitizeImage (FirecrackerOptions.Image fo))];
     command.Dir := "";
     command.Env := [];
     command.Operation := Operations.SetupFirecrackerStart operations |}.

(** The command with which [setupFirecracker] runs the startup script. *)
Definition startupScriptCommand (name : string) (options : Options.t)
           (operations : Operations.t) : command.t :=
  {| command.Key := "setup.startup-script";
     command.Command :=
       flatten
         [str "ignite"; str "exec"; str name; str "--";
          str (FirecrackerOptions.VMStartupScriptPath
                 (Options.FirecrackerOptions options))];
     command.Dir := "";
     command.Env := [];
     command.Operation := Operations.SetupStartupScript operations |}.

(** The first step of [setupFirecracker]: the daemon config file, when
    a registry mirror is configured; otherwise [daemonConfigFile] keeps
    its zero value. *)
Definition daemonConfigStep (tmpDir : string) (options : Options.t)
  : M (string * option error) :=
  let fo := Options.FirecrackerOptions options in
  if negb (String.eqb (FirecrackerOptions.DockerRegistryMirrorAddress fo) "")
  then newDockerDaemonConfig
         tmpDir (FirecrackerOptions.DockerRegistryMirrorAddress fo)
  else ret ("", None).

(** [setupFirecracker] invokes a set of commands to provision and
    prepare a Firecracker virtual machine instance. *)
Definition setupFirecracker (runner : commandRunner) (logger : Logger)
           (name workspaceDevice tmpDir : string) (options : Options.t)
           (operations : Operations.t) : M (option error) :=
  (let fo := Options.FirecrackerOptions options in
   config <- daemonConfigStep tmpDir options ;;
   match snd config with
   | Some _ => ret (snd config)
   | None =>
       let daemonConfigFile := fst config in
       err <- RunCommand
                (startCommand name workspaceDevice daemonConfigFile
                              options operations) logger ;;
       match err with
       | Some _ => ret (errors_Wrap err "failed to start firecracker vm")
       | None =>
           if negb (String.eqb (FirecrackerOptions.VMStartupScriptPath fo) "")
           then
             err <- RunCommand
                      (startupScriptCommand name options operations) logger ;;
             match err with
             | Some _ => ret (errors_Wrap err "failed to run startup script")
             | None => ret None
             end
           else ret None
       end
   end)%host.

(** The command with which [teardownFirecracker] removes the VM. *)
Definition removeCommand (name : string) (operations : Operations.t)
  : command.t :=
  {| command.Key := "teardown.firecracker.remove";
     command.Command := flatten [str "ignite"; str "rm"; str "-f"; str name];
     command.Dir := "";
     command.Env := [];
     command.Operation := Operations.TeardownFirecrackerRemove operations |}.

(** [teardownFirecracker] issues a stop and a remove request for the
    Firecracker VM with the given name and removes the tmpDir. *)
Definition teardownFirecracker (runner : commandRunner) (logger : Logger)
           (name tmpDir : string) (operations : Operations.t)
  : M (option error) :=
  (err <- RunCommand (removeCommand name operations) logger ;;
   match err with
   | Some _ =>
       log15_Error "Failed to remove firecracker vm"
                   [("name", LogString name); ("err", LogError err)]
   | None => ret tt
   end ;;;
   err <- perform (OsRemoveAll tmpDir) ;;
   match err with
   | Some _ =>
       log15_Error "Failed to remove firecracker state tmp dir"
                   [("name", LogString name); ("err", LogError err)]
   | None => ret tt
   end ;;;
   ret None)%host.

(** ** Runners *)

(** [runnerWrapper], whose [RunCommand] is [runCommand]. *)
Definition defaultRunner : commandRunner := {| RunCommand := runCommand |}.

End Package.

Module dockerRunner.
Record t : Type := mk {
  dir : string;
  logger : Logger;
  options : Options.t
}.
End dockerRunner.

Module firecrackerRunner.
Record t : Type := mk {
  name : string;
  workspaceDevice : string;
  logger : Logger;
  options : Options.t;
  (* tmpDir is used to store temporary files used for firecracker
     execution. *)
  tmpDir : string;
  operations : Operations.t
}.

Definition set_tmpDir (r : t) (dir : string) : t :=
  mk (name r) (workspaceDevice r) (logger r) (options r) dir (operations r).
End firecrackerRunner.

(** [Runner] is the interface between an executor and the host on which
    commands are invoked.  The methods have pointer receivers: each
    returns the receiver as it leaves it, next to its error. *)
Class Runner (R : Type) : Type := {
  Setup : R -> M (R * option error);
  Teardown : R -> M (R * option error);
  Run : R -> CommandSpec.t -> M (R * option error)
}.

Section Runners.

Context {collaborators : Collaborators}.
Variable host : Host.

#[export] Instance dockerRunner_Runner : Runner dockerRunner.t := {|
  Setup := fun r => ret (r, None);
  Teardown := fun r => ret (r, None);
  Run := fun r command =>
    (err <- runCommand host
              (formatRawOrDockerCommand
                 command (dockerRunner.dir r) (dockerRunner.options r))
              (dockerRunner.logger r) ;;
     ret (r, err))%host
|}.

#[export] Instance firecrackerRunner_Runner : Runner firecrackerRunner.t := {|
  Setup := fun r =>
    (res <- os_MkdirTemp host "" "executor-firecracker-runner" ;;
     match snd res with
     | Some _ =>
         ret (r, errors_Wrap (snd res)
                   "failed to create tmp dir for firecracker runner")
     | None =>
         let r := firecrackerRunner.set_tmpDir r (fst res) in
         err <- setupFirecracker host (defaultRunner host)
                  (firecrackerRunner.logger r) (firecrackerRunner.name r)
                  (firecrackerRunner.workspaceDevice r)
                  (firecrackerRunner.tmpDir r) (firecrackerRunner.options r)
                  (firecrackerRunner.operations r) ;;
         ret (r, err)
     end)%host;
  Teardown := fun r =>
    (err <- teardownFirecracker host (defaultRunner host)
              (firecrackerRunner.logger r) (firecrackerRunner.name r)
              (firecrackerRunner.tmpDir r) (firecrackerRunner.operations r) ;;
     ret (r, err))%host;
  Run := fun r command =>
    (err <- runCommand host
              (formatFirecrackerCommand
                 command (firecrackerRunner.name r)
                 (firecrackerRunner.options r))
              (firecrackerRunner.logger r) ;;
     ret (r, err))%host
|}.

(** A value of the interface type [Runner]: one of its two
    implementations. *)
Inductive runner : Type :=
| DockerRunner (r : dockerRunner.t)
| FirecrackerRunner (r : firecrackerRunner.t).

Definition lift {R : Type} (inj : R -> runner) (m : M (R * option error))
  : M (runner * option error) :=
  (res <- m ;; ret (inj (fst res), snd res))%host.

#[export] Instance runner_Runner : Runner runner := {|
  Setup := fun r =>
    match r with
    | DockerRunner d => lift DockerRunner (Setup d)
    | FirecrackerRunner f => lift FirecrackerRunner (Setup f)
    end;
  Teardown := fun r =>
    match r with
    | DockerRunner d => lift DockerRunner (Teardown d)
    | FirecrackerRunner f => lift FirecrackerRunner (Teardown f)
    end;
  Run := fun r command =>
    match r with
    | DockerRunner d => lift DockerRunner (Run d command)
    | FirecrackerRunner f => lift FirecrackerRunner (Run f command)
    end
|}.

(** [NewRunner] creates a new runner with the given options. *)
Definition NewRunner (dir : string) (logger : Logger) (options : Options.t)
           (operations : Operations.t) : runner :=
  if negb (FirecrackerOptions.Enabled (Options.FirecrackerOptions options))
  then DockerRunner
         {| dockerRunner.dir := dir;
            dockerRunner.logger := logger;
            dockerRunner.options := options |}
  else FirecrackerRunner
         {| firecrackerRunner.name := Options.ExecutorName options;
            firecrackerRunner.workspaceDevice := dir;
            firecrackerRunner.logger := logger;
            firecrackerRunner.options := options;
            firecrackerRunner.tmpDir := "";
            firecrackerRunner.operations := operations |}.

End Runners.

(** ** One implementation of the collaborators

    The statements below hold for every [Collaborators]; this instance
    serves to run the package on concrete inputs. *)

Module Reference.

Definition squote : ascii := "'"%char.

(** The characters the shellquote package escapes with a backslash:
    backslash, the quotes, and [`${[|&;<>()*?!]. *)
Definition is_special (a : ascii) : bool :=
  Ascii.eqb a backslash || Ascii.eqb a squote || Ascii.eqb a dquote
  || existsb (Ascii.eqb a) (list_ascii_of_string "`${[|&;<>()*?!").

(** Space, tab and newline: a word holding one is quoted whole. *)
Definition is_extra_special (a : ascii) : bool :=
  Ascii.eqb a " " || Nat.eqb (nat_of_ascii a) 9 || Nat.eqb (nat_of_ascii a) 10.

Fixpoint any_char (p : ascii -> bool) (s : string) : bool :=
  match s with
  | "" => false
  | String a s' => p a || any_char p s'
  end.

Fixpoint escape_word (s : string) (atStart : bool) : string :=
  match s with
  | "" => ""
  | String a s' =>
      if is_special a || (atStart && Ascii.eqb a "~")
      then String backslash (String a (escape_word s' false))
      else String a (escape_word s' false)
  end.

Definition quoted (seg : string) : string :=
  if String.eqb seg "" then "" else chars [squote] ++ seg ++ chars [squote].

(** Single quotes around the word; a single quote in it ends the quoted
    text, is written escaped, and the quoted text starts again. *)
Fixpoint quote_word (s seg : string) : string :=
  match s with
  | "" => quoted seg
  | String a s' =>
      if Ascii.eqb a squote
      then quoted seg ++ chars [backslash; squote] ++ quote_word s' ""
      else quote_word s' (seg ++ chars [a])
  end.

Definition quote (word : string) : string :=
  if String.eqb word "" then chars [squote; squote]
  else if any_char is_extra_special word then quote_word word ""
  else escape_word word true.

Definition shellquote_Join (args : list string) : string :=
  GoString.Join (map quote args) " ".

(** [strings.SplitN(s, "=", 2)]: the text before the first [=], and the
    text after it when there is one. *)
Fixpoint split_assignment (s : string) : string * option string :=
  match s with
  | "" => ("", None)
  | String a s' =>
      if Ascii.eqb a "="
      then ("", Some s')
      else let (n, v) := split_assignment s' in (String a n, v)
  end.

(** Modelled from the spec: [quoteEnv] is not under src/.  Section 4.2:
    each variable is shell-escaped on its own and written [VAR=value].
    An entry without [=] is left as it is here. *)
Definition quoteEnv (env : list string) : list string :=
  map (fun e =>
         match split_assignment e with
         | (n, Some v) => (n ++ "=" ++ shellquote_Join [v])%string
         | (_, None) => e
         end) env.

(** Modelled from the spec: [intersperse] is not under src/.  Section 6
    writes the copy-files flag as the flag followed by the pairs, separated
    by commas, and only when there is a pair. *)
Definition intersperse (flag : string) (values : list string) : list string :=
  match values with
  | [] => []
  | _ => [flag; GoString.Join values ","]
  end.

(** The non-empty elements joined by slashes: what [path.Join] and
    [filepath.Join] return on elements that are lexically clean. *)
Definition join_path (elem : list string) : string :=
  GoString.Join (filter (fun e => negb (String.eqb e "")) elem) "/".

(** Modelled from the spec: the container branch of
    [formatRawOrDockerCommand] is not under src/.  Section 4.2: a container
    invocation that gives each environment assignment as a flag, mounts the
    base directory, sets the working directory inside the container, and
    ends with the sanitized image and the script path or command tokens. *)
Definition formatDockerCommand (spec : CommandSpec.t) (dir : string)
           (options : Options.t) : command.t :=
  {| command.Key := CommandSpec.Key spec;
     command.Command :=
       ["docker"; "run"; "--rm"]
         ++ flat_map (fun e => ["-e"; e]) (quoteEnv (CommandSpec.Env spec))
         ++ ["-v"; GoString.colon dir "/data";
             "-w"; join_path ["/data"; CommandSpec.Dir spec];
             sanitizeImage (CommandSpec.Image spec)]
         ++ (if String.eqb (CommandSpec.ScriptPath spec) ""
             then CommandSpec.Command spec
             else [join_path ["/data"; CommandSpec.ScriptPath spec]]);
     command.Dir := "";
     command.Env := [];
     command.Operation := CommandSpec.Operation spec |}.

(** A host on which every request succeeds. *)
Definition quiet_host : Host :=
  {| outcome := fun _ _ => None;
     tempname := fun _ => "/tmp/executor-firecracker-runner1" |}.

(** A host that refuses the requests [p] selects, with [e]. *)
Definition failing_host (p : call -> bool) (e : error) : Host :=
  {| outcome := fun _ c => if p c then Some e else None;
     tempname := fun _ => "/tmp/executor-firecracker-runner1" |}.

(** The request to write a file. *)
Definition is_write (c : call) : bool :=
  match c with
  | OsWriteFile _ _ _ => true
  | _ => false
  end.

(** The invocation of the command with the given key. *)
Definition has_key (key : string) (c : call) : bool :=
  match c with
  | RunCommandCall cmd _ => String.eqb (command.Key cmd) key
  | _ => false
  end.

Definition operation (n : string) : Operation := {| operation_name := n |}.

Definition operations : Operations.t :=
  {| Operations.SetupFirecrackerStart := operation "setup.firecracker.start";
     Operations.SetupStartupScript := operation "setup.startup-script";
     Operations.TeardownFirecrackerRemove :=
       operation "teardown.firecracker.remove" |}.

Definition logger : Logger := {| logger_name := "log" |}.

Definition options (enabled : bool) (image kernel script mirror : string)
  : Options.t :=
  {| Options.ExecutorName := "vm1";
     Options.FirecrackerOptions :=
       {| FirecrackerOptions.Enabled := enabled;
          FirecrackerOptions.Image := image;
          FirecrackerOptions.KernelImage := kernel;
          FirecrackerOptions.VMStartupScriptPath := script;
          FirecrackerOptions.DockerRegistryMirrorAddress := mirror |};
     Options.ResourceOptions :=
       {| ResourceOptions.NumCPUs := 4;
          ResourceOptions.Memory := "12G";
          ResourceOptions.DiskSpace := "20G";
          ResourceOptions.DockerHostMountPath := "" |} |}.

Definition spec (image : string) (cmd : list string) (dir : string)
           (env : list string) : CommandSpec.t :=
  {| CommandSpec.Key := "step";
     CommandSpec.Image := image;
     CommandSpec.ScriptPath := "";
     CommandSpec.Command := cmd;
     CommandSpec.Dir := dir;
     CommandSpec.Env := env;
     CommandSpec.Operation := operation "exec" |}.

Definition hex64 : string :=
  "0123456789abcdef0123456789abcdef0123456789abcdef0123456789abcdef".

End Reference.

Definition reference_collaborators : Collaborators :=
  {| shellquote_Join := Reference.shellquote_Join;
     quoteEnv := Reference.quoteEnv;
     intersperse := Reference.intersperse;
     path_Join := Reference.join_path;
     filepath_Join := fun a b => Reference.join_path [a; b];
     formatDockerCommand := Reference.formatDockerCommand |}.

(** ** Notions used in the statements *)

Fixpoint all_chars (p : ascii -> bool) (s : string) : bool :=
  match s with
  | "" => true
  | String a s' => p a && all_chars p s'
  end.

Fixpoint takeWhile (p : ascii -> bool) (s : string) : string :=
  match s with
  | "" => ""
  | String a s' => if p a then String a (takeWhile p s') else ""
  end.

Fixpoint dropWhile (p : ascii -> bool) (s : string) : string :=
  match s with
  | "" => ""
  | String a s' => if p a then dropWhile p s' else s
  end.

Definition name_char (a : ascii) : bool := negb (is_colon_or_at a).

Definition tag_char (a : ascii) : bool := negb (is_at a).

(** [0-9a-f] *)
Definition is_lower_hex (a : ascii) : bool :=
  in_range 48 57 a || in_range 97 102 a.

(** What [sanitizeImage] returns, read off the text directly: the first
    run of characters other than [:] and [@], and the tag after it when a
    [:] and a character other than [@] follow. *)
Definition name_and_tag (image : string) : string :=
  let from := dropWhile is_colon_or_at image in
  match from with
  | "" => image
  | _ =>
      let name := takeWhile name_char from in
      match dropWhile name_char from with
      | String a rest =>
          if Ascii.eqb a ":" && negb (String.eqb (takeWhile tag_char rest) "")
          then GoString.colon name (takeWhile tag_char rest)
          else name
      | "" => name
      end
  end.

(** The tag that follows a name: the text after a [:], up to the first
    [@]. *)
Definition tag_after (rest : string) : string :=
  match rest with
  | String a rest' => if Ascii.eqb a ":" then takeWhile tag_char rest' else ""
  | "" => ""
  end.

Definition tag_part (tag : option string) : string :=
  match tag with
  | Some t => ":" ++ t
  | None => ""
  end.

Definition digest_part (digest : option string) : string :=
  match digest with
  | Some d => "@sha256:" ++ d
  | None => ""
  end.

(** The text [name[:tag][@sha256:digest]]. *)
Definition image_ref (name : string) (tag digest : option string) : string :=
  name ++ tag_part tag ++ digest_part digest.

(** The parts of a reference of the shape
    [name[:tag][@sha256:<64 lowercase hex chars>]]. *)
Definition well_shaped (name : string) (tag digest : option string) : Prop :=
  name <> ""
  /\ all_chars name_char name = true
  /\ (forall t, tag = Some t -> t <> "" /\ all_chars tag_char t = true)
  /\ (forall d, digest = Some d ->
                String.length d = 64 /\ all_chars is_lower_hex d = true).

Definition has_shape (image : string) : Prop :=
  exists name tag digest,
    well_shaped name tag digest /\ image = image_ref name tag digest.

(** The content of the daemon config for one mirror address. *)
Definition daemon_config_content (mirrorAddress : string) : string :=
  fst (json_Marshal {| RegistryMirrors := [mirrorAddress] |}).

(** [{"registry-mirrors":["http://mirror.local"]}], the quotes written by
    their character code. *)
Definition mirror_local_config : string :=
  "{" ++ chars [dquote] ++ "registry-mirrors" ++ chars [dquote] ++ ":["
      ++ chars [dquote] ++ "http://mirror.local" ++ chars [dquote] ++ "]}".

(** An error that carries the context [msg] of the step that failed. *)
Definition wrapped_with (msg : string) (err : option error) : Prop :=
  exists cause, err = Some (ErrWrap cause msg).

(** An error that carries some context. *)
Definition wrapped (err : option error) : Prop :=
  exists msg, wrapped_with msg err.

Definition is_file_request (c : call) : bool :=
  match c with
  | OsCreate _ | OsWriteFile _ _ _ | FileClose _ => true
  | _ => false
  end.

Definition is_log (c : call) : bool :=
  match c with
  | Log15Error _ _ => true
  | _ => false
  end.

(** The request of [os.MkdirTemp] that the Firecracker runner makes. *)
Definition mkdirTempCall : call :=
  OsMkdirTemp "" "executor-firecracker-runner".

Definition is_mkdirTemp (c : call) : bool :=
  match c with
  | OsMkdirTemp _ _ => true
  | _ => false
  end.

(** A host on which every request succeeds, and which names a new
    temporary directory after the number of requests made so far. *)
Definition numbering_host : Host :=
  {| outcome := fun _ _ => None;
     tempname := fun h =>
       ("/tmp/executor-firecracker-runner"
          ++ GoString.Itoa (Z.of_nat (List.length h)))%string |}.

(** A Firecracker runner on which Setup has not run. *)
Definition fresh_runner (options : Options.t) : firecrackerRunner.t :=
  {| firecrackerRunner.name := Options.ExecutorName options;
     firecrackerRunner.workspaceDevice := "/dev/loop0";
     firecrackerRunner.logger := Reference.logger;
     firecrackerRunner.options := options;
     firecrackerRunner.tmpDir := "";
     firecrackerRunner.operations := Reference.operations |}.

(** The last token of a command line. *)
Definition last_token (c : command.t) : string :=
  last (command.Command c) "".

(** * Properties *)

(** ** Strings *)

Lemma append_empty_r (s : string) : (s ++ "")%string = s.
Proof.
  induction s as [|a s IH]; simpl; [reflexivity|]. now rewrite IH.
Qed.

Lemma append_assoc (s t u : string) :
  ((s ++ t) ++ u)%string = (s ++ (t ++ u))%string.
Proof.
  induction s as [|a s IH]; simpl; [reflexivity|]. now rewrite IH.
Qed.

Lemma length_append (s t : string) :
  String.length (s ++ t) = String.length s + String.length t.
Proof.
  induction s as [|a s IH]; simpl; [reflexivity|]. now rewrite IH.
Qed.

Lemma all_chars_append (p : ascii -> bool) (s t : string) :
  all_chars p (s ++ t) = all_chars p s && all_chars p t.
Proof.
  induction s as [|a s IH]; simpl; [reflexivity|].
  rewrite IH. now rewrite andb_assoc.
Qed.

Lemma all_chars_weaken (p q : ascii -> bool) (s : string) :
  (forall a, p a = true -> q a = true) ->
  all_chars p s = true -> all_chars q s = true.
Proof.
  intros Hpq. induction s as [|a s IH]; simpl; [reflexivity|].
  intros H. apply andb_true_iff in H as [Ha Hs].
  rewrite (Hpq _ Ha). now apply IH.
Qed.

Lemma takeWhile_all (p : ascii -> bool) (s t : string) :
  all_chars p s = true ->
  takeWhile p (s ++ t) = (s ++ takeWhile p t)%string.
Proof.
  induction s as [|a s IH]; simpl; [reflexivity|].
  intros H. apply andb_true_iff in H as [Ha Hs].
  rewrite Ha. now rewrite IH.
Qed.

Lemma dropWhile_all (p : ascii -> bool) (s t : string) :
  all_chars p s = true -> dropWhile p (s ++ t) = dropWhile p t.
Proof.
  induction s as [|a s IH]; simpl; [reflexivity|].
  intros H. apply andb_true_iff in H as [Ha Hs].
  rewrite Ha. now apply IH.
Qed.

Lemma all_chars_takeWhile (p : ascii -> bool) (s : string) :
  all_chars p (takeWhile p s) = true.
Proof.
  induction s as [|a s IH]; simpl; [reflexivity|].
  destruct (p a) eqn:Ha; simpl; [|reflexivity]. now rewrite Ha.
Qed.

Lemma dropWhile_all_empty (p : ascii -> bool) (s : string) :
  all_chars p s = true -> dropWhile p s = "".
Proof.
  intros H. rewrite <- (append_empty_r s). now rewrite dropWhile_all.
Qed.

Lemma dropWhile_empty_all (p : ascii -> bool) (s : string) :
  dropWhile p s = "" -> all_chars p s = true.
Proof.
  induction s as [|a s IH]; simpl; [reflexivity|].
  destruct (p a); [exact IH | discriminate].
Qed.

Lemma length_dropWhile_le (p : ascii -> bool) (s : string) :
  String.length (dropWhile p s) <= String.length s.
Proof.
  induction s as [|b s IH]; simpl; [lia|].
  destruct (p b); simpl; lia.
Qed.

Lemma take_length_dropWhile (p : ascii -> bool) (s : string) :
  GoString.take (String.length s - String.length (dropWhile p s)) s
  = takeWhile p s.
Proof.
  induction s as [|a s IH]; [reflexivity|].
  cbn [dropWhile takeWhile]. destruct (p a) eqn:Ha.
  - pose proof (length_dropWhile_le p s) as Hle.
    cbn [String.length].
    replace (S (String.length s) - String.length (dropWhile p s))
      with (S (String.length s - String.length (dropWhile p s))) by lia.
    cbn [GoString.take]. now rewrite IH.
  - now rewrite Nat.sub_diag.
Qed.

(** ** The pattern matcher on [imagePattern] *)

Module RegexpFacts.
Import Regexp.

(** A greedy run whose continuation cannot fail stops where the class
    stops. *)
Lemma match_many_greedy (p : ascii -> bool) (s : string)
      (k : string -> option found) :
  (forall s', k s' <> None) ->
  match_many p s k = k (dropWhile p s).
Proof.
  intros Hk. induction s as [|a s IH]; simpl; [reflexivity|].
  destruct (p a); [|reflexivity].
  rewrite IH. destruct (k (dropWhile p s)) eqn:E; [reflexivity|].
  now apply Hk in E.
Qed.

Lemma match_rep_result (n : nat) (p : ascii -> bool) (s : string)
      (k : string -> option found) :
  match_rep n p s k = None \/ exists s', match_rep n p s k = k s'.
Proof.
  revert s. induction n as [|n IH]; intros s; simpl.
  - right. now exists s.
  - destruct s as [|a s]; [now left|].
    destruct (p a); [apply IH | now left].
Qed.

Lemma run_plus_at (p : ascii -> bool) (a : ascii) (s : string) (c : captures)
      (k : string -> captures -> option found) :
  p a = true ->
  (forall s' c', k s' c' <> None) ->
  run (Plus p) (String a s) c k = k (dropWhile p s) c.
Proof.
  intros Ha Hk. simpl. rewrite Ha.
  now rewrite match_many_greedy by (intros s'; apply Hk).
Qed.

Lemma run_plus_none (p : ascii -> bool) (s : string) (c : captures)
      (k : string -> captures -> option found) :
  takeWhile p s = "" -> run (Plus p) s c k = None.
Proof.
  destruct s as [|a s]; simpl; [reflexivity|].
  destruct (p a); [discriminate | reflexivity].
Qed.

Lemma run_opt_some (r : regex) (s : string) (c : captures)
      (k : string -> captures -> option found) :
  k s c <> None -> run (Opt r) s c k <> None.
Proof.
  intros Hk. simpl. destruct (run r s c k); [discriminate | exact Hk].
Qed.

(** The digest part always lets the match finish, and leaves groups 1
    and 2 as they are. *)
Lemma digest_part_result (r : string) (c : captures) :
  exists rest c',
    run (Opt (Seq (Lit "@sha256:") (Group 3 (Rep 64 is_lower_alnum))))
        r c final = Some (rest, c')
    /\ c' 1 = c 1 /\ c' 2 = c 2.
Proof.
  cbn [run]. destruct (match_lit "@sha256:" r) as [r'|].
  - match goal with
    | |- context [match_rep ?n ?p ?s ?k] =>
        destruct (match_rep_result n p s k) as [E | [s' E]]; rewrite E
    end.
    + exists r, c. now cbn.
    + eexists _, _. cbn. split; [reflexivity|]. now split.
  - exists r, c. now cbn.
Qed.

Lemma digest_part_some (r : string) (c : captures) :
  run (Opt (Seq (Lit "@sha256:") (Group 3 (Rep 64 is_lower_alnum))))
      r c final <> None.
Proof.
  destruct (digest_part_result r c) as (rest & c' & E & _).
  rewrite E. discriminate.
Qed.

Lemma run_lit_colon (a : ascii) (s : string) (c : captures)
      (k : string -> captures -> option found) :
  run (Lit ":") (String a s) c k = if Ascii.eqb a ":" then k s c else None.
Proof.
  cbn [run match_lit]. rewrite Ascii.eqb_sym.
  now destruct (Ascii.eqb a ":").
Qed.

Section TagPart.

Variable B : regex.
Hypothesis B_result :
  forall r c, exists rest c',
      run B r c final = Some (rest, c') /\ c' 1 = c 1 /\ c' 2 = c 2.

Let tag_pattern : regex :=
  Seq (Lit ":") (Group 2 (Plus (fun a => negb (is_at a)))).

Lemma B_some (r : string) (c : captures) : run B r c final <> None.
Proof.
  destruct (B_result r c) as (rest & c' & E & _). rewrite E. discriminate.
Qed.

Lemma tag_pattern_result (r : string) (c : captures) :
  (tag_after r = "" /\ run tag_pattern r c (fun s c' => run B s c' final) = None)
  \/ (tag_after r <> ""
      /\ exists rest,
          run tag_pattern r c (fun s c' => run B s c' final)
          = run B rest (capture 2 (tag_after r) c) final).
Proof.
  destruct r as [|a r]; [left; split; reflexivity|].
  unfold tag_pattern. change (run (Seq ?x ?y) ?s ?cc ?k)
    with (run x s cc (fun s' c' => run y s' c' k)).
  rewrite run_lit_colon. cbn [tag_after].
  destruct (Ascii.eqb a ":"); [|left; split; reflexivity].
  change (run (Group 2 ?x) r c ?k)
    with (run x r c
              (fun s' c' =>
                 k s' (capture 2 (GoString.take
                                    (String.length r - String.length s') r) c'))).
  destruct r as [|b r]; [left; split; reflexivity|].
  destruct (negb (is_at b)) eqn:Hb.
  - right. split.
    + cbn [takeWhile]. unfold tag_char. rewrite Hb. discriminate.
    + rewrite run_plus_at; [|exact Hb | intros s' c'; apply B_some].
      exists (dropWhile (fun a0 => negb (is_at a0)) r).
      pose proof (take_length_dropWhile (fun a0 => negb (is_at a0))
                                        (String b r)) as T.
      cbn [dropWhile] in T. rewrite Hb in T. rewrite T. reflexivity.
  - left. split.
    + cbn [takeWhile]. unfold tag_char. now rewrite Hb.
    + apply run_plus_none. cbn [takeWhile]. now rewrite Hb.
Qed.

(** The tag part always lets the match finish, leaves group 1 as it is
    and sets group 2 to the tag, when there is one. *)
Lemma tag_part_result (r : string) (c : captures) :
  c 2 = None ->
  exists rest c',
    run (Seq (Opt tag_pattern) B) r c final = Some (rest, c')
    /\ c' 1 = c 1 /\ group_text c' 2 = tag_after r.
Proof.
  intros Hc.
  change (run (Seq (Opt tag_pattern) B) r c final)
    with (orelse (run tag_pattern r c (fun s c' => run B s c' final))
                 (run B r c final)).
  destruct (tag_pattern_result r c) as [[Ht E] | [Ht [rest E]]]; rewrite E.
  - cbn [orelse].
    destruct (B_result r c) as (rest & c' & E' & H1 & H2).
    exists rest, c'. split; [exact E'|]. split; [exact H1|].
    unfold group_text. now rewrite H2, Hc, Ht.
  - destruct (B_result rest (capture 2 (tag_after r) c))
      as (rest' & c' & E' & H1 & H2).
    rewrite E'. cbn [orelse].
    exists rest', c'. split; [reflexivity|]. split; [exact H1|].
    unfold group_text. now rewrite H2.
Qed.

Lemma tag_part_some (r : string) (c : captures) :
  run (Seq (Opt tag_pattern) B) r c final <> None.
Proof.
  change (run (Seq (Opt tag_pattern) B) r c final)
    with (orelse (run tag_pattern r c (fun s c' => run B s c' final))
                 (run B r c final)).
  destruct (run tag_pattern r c (fun s c' => run B s c' final));
    [discriminate | apply B_some].
Qed.

End TagPart.

(** At a name character, [imagePattern] matches, with the name in group 1
    and the tag in group 2. *)
Lemma match_here_name (a : ascii) (s : string) :
  name_char a = true ->
  exists rest c,
    match_here imagePattern (String a s) = Some (rest, c)
    /\ group_text c 1 = takeWhile name_char (String a s)
    /\ group_text c 2 = tag_after (dropWhile name_char (String a s)).
Proof.
  intros Ha. unfold match_here, imagePattern.
  set (B := Opt (Seq (Lit "@sha256:") (Group 3 (Rep 64 is_lower_alnum)))).
  set (T := Seq (Opt (Seq (Lit ":") (Group 2 (Plus (fun a => negb (is_at a))))))
                B).
  change (run (Seq (Group 1 ?x) T) ?s0 no_captures final)
    with (run x s0 no_captures
              (fun s' c' =>
                 run T s'
                     (capture 1 (GoString.take
                                   (String.length s0 - String.length s') s0) c')
                     final)).
  assert (HT : forall r c, c 2 = None ->
                 exists rest c',
                   run T r c final = Some (rest, c')
                   /\ c' 1 = c 1 /\ group_text c' 2 = tag_after r).
  { intros r c Hc. apply tag_part_result; [|exact Hc].
    intros r0 c0. apply digest_part_result. }
  rewrite run_plus_at; [|exact Ha|].
  - pose proof (take_length_dropWhile name_char (String a s)) as Tk.
    cbn [dropWhile] in Tk. rewrite Ha in Tk.
    change (fun a0 => negb (is_colon_or_at a0)) with name_char.
    rewrite Tk.
    destruct (HT (dropWhile name_char s)
                 (capture 1 (takeWhile name_char (String a s)) no_captures))
      as (rest & c' & E & H1 & H2); [reflexivity|].
    exists rest, c'. split; [exact E|]. split.
    + unfold group_text. now rewrite H1.
    + rewrite H2. cbn [dropWhile]. now rewrite Ha.
  - intros s' c'. apply tag_part_some.
    intros r0 c0. apply digest_part_result.
Qed.

Lemma match_here_sep (a : ascii) (s : string) :
  name_char a = false -> match_here imagePattern (String a s) = None.
Proof.
  intros Ha. unfold match_here, imagePattern.
  change (run (Seq (Group 1 ?x) ?T) ?s0 no_captures final)
    with (run x s0 no_captures
              (fun s' c' =>
                 run T s'
                     (capture 1 (GoString.take
                                   (String.length s0 - String.length s') s0) c')
                     final)).
  apply run_plus_none. cbn [takeWhile].
  change (negb (is_colon_or_at a)) with (name_char a). now rewrite Ha.
Qed.

Lemma match_here_empty : match_here imagePattern "" = None.
Proof. reflexivity. Qed.

(** The leftmost match begins at the first name character. *)
Lemma search_image (s : string) :
  let from := dropWhile is_colon_or_at s in
  (from = "" /\ search imagePattern s = None)
  \/ (from <> ""
      /\ exists rest c,
          search imagePattern s = Some (from, (rest, c))
          /\ group_text c 1 = takeWhile name_char from
          /\ group_text c 2 = tag_after (dropWhile name_char from)).
Proof.
  induction s as [|a s IH]; cbn zeta.
  - left. split; reflexivity.
  - cbn [dropWhile search]. destruct (is_colon_or_at a) eqn:Ha.
    + rewrite match_here_sep by (unfold name_char; now rewrite Ha).
      exact IH.
    + right. split; [discriminate|].
      destruct (match_here_name a s) as (rest & c & E & H1 & H2).
      { unfold name_char. now rewrite Ha. }
      rewrite E. now exists rest, c.
Qed.

End RegexpFacts.

(** ** sanitizeImage *)

(** [sanitizeImage] returns the name and the tag of the leftmost match. *)
Lemma sanitizeImage_name_and_tag (image : string) :
  sanitizeImage image = name_and_tag image.
Proof.
  unfold sanitizeImage, name_and_tag, Regexp.FindStringSubmatch.
  destruct (RegexpFacts.search_image image)
    as [[Hfrom E] | [Hfrom (rest & c & E & H1 & H2)]]; cbn zeta in *.
  - rewrite E, Hfrom. reflexivity.
  - rewrite E.
    destruct (dropWhile is_colon_or_at image) as [|a from] eqn:Ef;
      [congruence|].
    cbn [imagePattern_groups seq map List.length Nat.eqb nth].
    rewrite H1, H2. unfold tag_after.
    destruct (dropWhile name_char (String a from)) as [|b r]; [reflexivity|].
    destruct (Ascii.eqb b ":"); cbn [andb]; [|reflexivity].
    destruct (String.eqb (takeWhile tag_char r) ""); reflexivity.
Qed.

Lemma name_char_tag_char (a : ascii) : name_char a = true -> tag_char a = true.
Proof.
  unfold name_char, tag_char, is_colon_or_at, is_at.
  destruct (Ascii.eqb a ":"), (Ascii.eqb a "@"); simpl; congruence.
Qed.

Lemma name_char_not_sep (a : ascii) :
  name_char a = true -> is_colon_or_at a = false.
Proof. unfold name_char. now destruct (is_colon_or_at a). Qed.

Lemma takeWhile_digest_part (p : ascii -> bool) (digest : option string) :
  p "@"%char = false -> takeWhile p (digest_part digest) = "".
Proof.
  intros Hp. destruct digest as [d|]; [|reflexivity].
  cbn [digest_part append takeWhile]. now rewrite Hp.
Qed.

(** On a reference of the expected shape the result is the name, with the
    tag when there is one. *)
Lemma sanitizeImage_shaped (name : string) (tag digest : option string) :
  well_shaped name tag digest ->
  sanitizeImage (image_ref name tag digest) = (name ++ tag_part tag)%string.
Proof.
  intros (Hne & Hname & Htag & _).
  rewrite sanitizeImage_name_and_tag. unfold name_and_tag, image_ref.
  set (X := (tag_part tag ++ digest_part digest)%string).
  destruct name as [|a name]; [congruence|].
  pose proof Hname as Hall. cbn [all_chars] in Hname.
  apply andb_true_iff in Hname as [Ha Hrest].
  cbn [append dropWhile]. rewrite (name_char_not_sep a Ha).
  change (String a (name ++ X)%string) with (String a name ++ X)%string.
  rewrite takeWhile_all, dropWhile_all by exact Hall.
  unfold X. destruct tag as [t|].
  - destruct (Htag t eq_refl) as [Htne Ht].
    change (tag_part (Some t) ++ digest_part digest)%string
      with (String ":" (t ++ digest_part digest)).
    change (dropWhile name_char (String ":" ?r)) with (String ":"%char r).
    change (takeWhile name_char (String ":" ?r)) with "".
    change (Ascii.eqb ":" ":") with true. cbn [andb].
    rewrite (takeWhile_all tag_char) by exact Ht.
    rewrite takeWhile_digest_part by reflexivity.
    rewrite !append_empty_r.
    destruct (String.eqb_spec t ""); [congruence|]. reflexivity.
  - change (tag_part None ++ digest_part digest)%string
      with (digest_part digest).
    rewrite takeWhile_digest_part by reflexivity.
    destruct digest as [d|]; cbn [digest_part append dropWhile];
      cbn; now rewrite append_empty_r.
Qed.

(** Where the pattern matches nowhere the reference is returned as it
    is. *)
Lemma sanitizeImage_no_match (image : string) :
  all_chars is_colon_or_at image = true -> sanitizeImage image = image.
Proof.
  intros H. rewrite sanitizeImage_name_and_tag. unfold name_and_tag.
  now rewrite dropWhile_all_empty.
Qed.

(** The three forms of a result. *)
Lemma name_and_tag_cases (image : string) :
  (all_chars is_colon_or_at image = true /\ name_and_tag image = image)
  \/ (exists name,
         well_shaped name None None /\ name_and_tag image = name)
  \/ (exists name t,
         well_shaped name (Some t) None
         /\ name_and_tag image = (name ++ ":" ++ t)%string).
Proof.
  unfold name_and_tag.
  destruct (dropWhile is_colon_or_at image) as [|a from] eqn:Ef.
  - left. split; [now apply dropWhile_empty_all | reflexivity].
  - right.
    assert (Ha : name_char a = true).
    { assert (H : forall s, dropWhile is_colon_or_at s = String a from ->
                            is_colon_or_at a = false).
      { induction s as [|b s IH]; cbn [dropWhile]; [discriminate|].
        destruct (is_colon_or_at b) eqn:Eb; [exact IH|].
        intros E. injection E as -> _. exact Eb. }
      unfold name_char. now rewrite (H image Ef). }
    set (name := takeWhile name_char (String a from)).
    assert (Hname : well_shaped name None None).
    { repeat split; try discriminate.
      - unfold name. cbn [takeWhile]. rewrite Ha. discriminate.
      - apply all_chars_takeWhile. }
    destruct (dropWhile name_char (String a from)) as [|b r];
      [left; now exists name|].
    destruct (Ascii.eqb b ":" && negb (String.eqb (takeWhile tag_char r) ""))
             eqn:Et; [|left; now exists name].
    right. exists name, (takeWhile tag_char r). split; [|reflexivity].
    apply andb_true_iff in Et as [_ Et].
    destruct Hname as (H1 & H2 & _).
    split; [exact H1|]. split; [exact H2|]. split; [|discriminate].
    intros t' [= <-]. split; [|apply all_chars_takeWhile].
    destruct (String.eqb_spec (takeWhile tag_char r) "");
      [discriminate | assumption].
Qed.

Lemma no_at_no_digest (s : string) :
  all_chars tag_char s = true -> GoString.Contains s "@sha256:" = false.
Proof.
  induction s as [|a s IH]; [reflexivity|].
  cbn [all_chars]. intros H. apply andb_true_iff in H as [Ha Hs].
  cbn [GoString.Contains GoString.HasPrefix].
  rewrite (IH Hs). unfold tag_char, is_at in Ha.
  rewrite Ascii.eqb_sym. destruct (Ascii.eqb a "@"); [discriminate|].
  reflexivity.
Qed.

Lemma separators_no_digest (s : string) :
  all_chars is_colon_or_at s = true -> GoString.Contains s "@sha256:" = false.
Proof.
  induction s as [|a s IH]; [reflexivity|].
  cbn [all_chars]. intros H. apply andb_true_iff in H as [Ha Hs].
  cbn [GoString.Contains]. rewrite (IH Hs), orb_false_r.
  destruct s as [|b s]; cbn [GoString.HasPrefix]; [now rewrite andb_false_r|].
  cbn [all_chars] in Hs. apply andb_true_iff in Hs as [Hb _].
  unfold is_colon_or_at in Hb.
  assert (E : Ascii.eqb "s" b = false).
  { rewrite Ascii.eqb_sym. apply Ascii.eqb_neq. intros ->. discriminate. }
  rewrite E. now rewrite andb_false_r.
Qed.

Lemma shaped_result_tag_chars (name : string) (tag : option string) :
  well_shaped name tag None ->
  all_chars tag_char (name ++ tag_part tag) = true.
Proof.
  intros (_ & Hname & Htag & _). rewrite all_chars_append.
  rewrite (all_chars_weaken name_char tag_char name name_char_tag_char Hname).
  destruct tag as [t|]; [|reflexivity].
  destruct (Htag t eq_refl) as [_ Ht]. cbn. exact Ht.
Qed.

Lemma has_shape_at_or_long (image : string) :
  has_shape image ->
  all_chars tag_char image = true \/ 72 <= String.length image.
Proof.
  intros (name & tag & digest & Hs & ->).
  destruct digest as [d|].
  - right. destruct Hs as (_ & _ & _ & Hd).
    destruct (Hd d eq_refl) as [Hlen _].
    unfold image_ref. rewrite !length_append.
    change (digest_part (Some d)) with ("@sha256:" ++ d)%string.
    rewrite length_append, Hlen. cbn [String.length]. lia.
  - left. unfold image_ref. cbn [digest_part].
    rewrite append_empty_r. now apply shaped_result_tag_chars.
Qed.

(** The round trips of the sanitizer. *)
Example sanitizeImage_round_trips :
  sanitizeImage ("repo/img:tag@sha256:" ++ Reference.hex64) = "repo/img:tag"
  /\ sanitizeImage ("repo/img@sha256:" ++ Reference.hex64) = "repo/img"
  /\ sanitizeImage "repo/img:tag" = "repo/img:tag"
  /\ sanitizeImage "localhost:5000/repo/img:tag" = "localhost:5000/repo/img:tag"
  /\ sanitizeImage "" = "".
Proof. repeat split; vm_compute; reflexivity. Qed.

(** C2, as the specification states it, fails: a reference that is not
    of the shape name[:tag][@sha256:digest] (here the digest is too
    short) is not returned unchanged; it is cut down to the name found
    in it. *)
Lemma sanitizeImage_changes_unshaped :
  ~ has_shape "repo/img@sha256:abc"
  /\ sanitizeImage "repo/img@sha256:abc" = "repo/img"
  /\ sanitizeImage "repo/img@sha256:abc" <> "repo/img@sha256:abc".
Proof.
  split; [|split].
  - intros H. apply has_shape_at_or_long in H as [H | H].
    + vm_compute in H. discriminate.
    + vm_compute in H. lia.
  - vm_compute. reflexivity.
  - vm_compute. discriminate.
Qed.

(** C2, amended: on a reference name[:tag][@sha256:<64 lowercase hex
    chars>], sanitizeImage returns name:tag when a tag is present and name
    alone when none is, without the digest; on a string in which the
    pattern matches nowhere, that is one with no character other than
    [:] and [@], it returns its input unchanged.  It is a total function:
    it never fails. *)
Theorem sanitizeImage_shaped_or_unmatched :
  (forall name tag digest,
      well_shaped name tag digest ->
      sanitizeImage (image_ref name tag digest) = (name ++ tag_part tag)%string)
  /\ (forall image,
         all_chars is_colon_or_at image = true ->
         sanitizeImage image = image).
Proof.
  split.
  - exact sanitizeImage_shaped.
  - exact sanitizeImage_no_match.
Qed.

Lemma sanitizeImage_shaped_or_unmatched_witness :
  sanitizeImage
    (image_ref "repo/img" (Some "tag") (Some Reference.hex64))
  = "repo/img:tag"
  /\ sanitizeImage (image_ref "repo/img" None (Some Reference.hex64))
     = "repo/img"
  /\ sanitizeImage "::@" = "::@".
Proof.
  assert (Hname : "repo/img" <> "" /\ all_chars name_char "repo/img" = true)
    by (split; [discriminate | reflexivity]).
  assert (Hdigest : forall d, Some Reference.hex64 = Some d ->
                              String.length d = 64
                              /\ all_chars is_lower_hex d = true)
    by (intros d [= <-]; split; reflexivity).
  split; [|split].
  - apply (proj1 sanitizeImage_shaped_or_unmatched
                 "repo/img" (Some "tag") (Some Reference.hex64)).
    split; [apply Hname|]. split; [apply Hname|]. split; [|exact Hdigest].
    intros t [= <-]. split; [discriminate | reflexivity].
  - apply (proj1 sanitizeImage_shaped_or_unmatched
                 "repo/img" None (Some Reference.hex64)).
    split; [apply Hname|]. split; [apply Hname|]. split; [|exact Hdigest].
    intros t [=].
  - apply (proj2 sanitizeImage_shaped_or_unmatched "::@"). reflexivity.
Defined.

(** C7: sanitizeImage is idempotent, and its result never contains the
    text [@sha256:], whatever the input. *)
Theorem sanitizeImage_idempotent_no_digest (image : string) :
  sanitizeImage (sanitizeImage image) = sanitizeImage image
  /\ GoString.Contains (sanitizeImage image) "@sha256:" = false.
Proof.
  rewrite (sanitizeImage_name_and_tag image).
  destruct (name_and_tag_cases image)
    as [[Hsep ->] | [(name & Hs & ->) | (name & t & Hs & ->)]].
  - split; [now apply sanitizeImage_no_match
           | now apply separators_no_digest].
  - pose proof (sanitizeImage_shaped name None None Hs) as E.
    pose proof (shaped_result_tag_chars name None Hs) as T.
    unfold image_ref in E. cbn [tag_part digest_part append] in E, T.
    rewrite !append_empty_r in E. rewrite append_empty_r in T.
    split; [exact E | now apply no_at_no_digest].
  - pose proof (sanitizeImage_shaped name (Some t) None Hs) as E.
    pose proof (shaped_result_tag_chars name (Some t) Hs) as T.
    unfold image_ref in E. cbn [tag_part digest_part] in E, T.
    rewrite !append_empty_r in E.
    split; [exact E | now apply no_at_no_digest].
Qed.

(** ** sort.Strings *)

Module SortFacts.

Local Abbreviation le := string_le.

Lemma ascii_compare_lt (a b : ascii) :
  Ascii.compare a b = Lt <-> (N_of_ascii a < N_of_ascii b)%N.
Proof. unfold Ascii.compare. apply N.compare_lt_iff. Qed.

Lemma ascii_compare_gt (a b : ascii) :
  Ascii.compare a b = Gt <-> (N_of_ascii b < N_of_ascii a)%N.
Proof. unfold Ascii.compare. apply N.compare_gt_iff. Qed.

Lemma ascii_compare_eq (a b : ascii) :
  Ascii.compare a b = Eq <-> a = b.
Proof.
  split; [apply Ascii.compare_eq_iff|].
  intros ->. unfold Ascii.compare. apply N.compare_refl.
Qed.

Lemma le_trans (s t u : string) : le s t -> le t u -> le s u.
Proof.
  unfold le, String.leb. revert t u.
  induction s as [|a s IH]; intros [|b t] [|c u]; cbn [String.compare];
    try congruence.
  specialize (IH t u).
  destruct (Ascii.compare a b) eqn:Eab; try congruence;
    destruct (Ascii.compare b c) eqn:Ebc; try congruence;
    destruct (Ascii.compare a c) eqn:Eac; try congruence;
    try exact IH; intros _ _; exfalso;
    repeat match goal with
           | H : Ascii.compare _ _ = Eq |- _ =>
               apply ascii_compare_eq in H; subst
           end;
    try congruence;
    repeat match goal with
           | H : Ascii.compare ?x ?x = _ |- _ =>
               rewrite (proj2 (ascii_compare_eq x x) eq_refl) in H;
               discriminate
           | H : Ascii.compare ?x ?y = Lt |- _ =>
               pose proof (proj1 (ascii_compare_lt x y) H); clear H
           | H : Ascii.compare ?x ?y = Gt |- _ =>
               pose proof (proj1 (ascii_compare_gt x y) H); clear H
           end;
    lia.
Qed.

Lemma le_total (s t : string) : le s t \/ le t s.
Proof. apply String.leb_total. Qed.

Lemma le_antisym (s t : string) : le s t -> le t s -> s = t.
Proof. apply String.leb_antisym. Qed.

Lemma not_le (s t : string) : String.leb s t = false -> le t s.
Proof.
  intros H. destruct (le_total s t) as [H' | H']; [|exact H'].
  unfold le in H'. congruence.
Qed.

Lemma insert_sorted_perm (x : string) (l : list string) :
  Permutation (insert_sorted x l) (x :: l).
Proof.
  induction l as [|y l IH]; cbn [insert_sorted]; [reflexivity|].
  destruct (String.leb x y); [reflexivity|].
  rewrite IH. apply perm_swap.
Qed.

Lemma sort_Strings_perm (l : list string) : Permutation (sort_Strings l) l.
Proof.
  induction l as [|x l IH]; cbn [sort_Strings]; [reflexivity|].
  rewrite insert_sorted_perm. now apply perm_skip.
Qed.

Lemma insert_sorted_sorted (x : string) (l : list string) :
  Sorted le l -> Sorted le (insert_sorted x l).
Proof.
  induction l as [|y l IH]; cbn [insert_sorted]; intros Hs.
  - repeat constructor.
  - destruct (String.leb x y) eqn:E.
    + constructor; [exact Hs|]. now constructor.
    + apply Sorted_inv in Hs as [Hs Hhd].
      constructor; [now apply IH|].
      destruct l as [|z l]; cbn [insert_sorted].
      * constructor. now apply not_le.
      * destruct (String.leb x z); constructor;
          [now apply not_le | now apply HdRel_inv in Hhd].
Qed.

Lemma sort_Strings_sorted (l : list string) : Sorted le (sort_Strings l).
Proof.
  induction l as [|x l IH]; cbn [sort_Strings]; [constructor|].
  now apply insert_sorted_sorted.
Qed.

Lemma insert_sorted_comm (x y : string) (l : list string) :
  insert_sorted x (insert_sorted y l) = insert_sorted y (insert_sorted x l).
Proof.
  induction l as [|z l IH]; cbn [insert_sorted].
  - destruct (String.leb x y) eqn:Exy, (String.leb y x) eqn:Eyx;
      try reflexivity.
    + now rewrite (le_antisym x y Exy Eyx).
    + apply not_le in Exy. unfold le in Exy. congruence.
  - destruct (String.leb y z) eqn:Eyz, (String.leb x z) eqn:Exz;
      cbn [insert_sorted]; rewrite ?Eyz, ?Exz.
    + destruct (String.leb x y) eqn:Exy, (String.leb y x) eqn:Eyx;
        try reflexivity.
      * now rewrite (le_antisym x y Exy Eyx).
      * apply not_le in Exy. unfold le in Exy. congruence.
    + destruct (String.leb x y) eqn:Exy; [|reflexivity].
      assert (Hxz : le x z) by (apply (le_trans x y z); assumption).
      unfold le in Hxz. congruence.
    + destruct (String.leb y x) eqn:Eyx; [|reflexivity].
      assert (Hyz : le y z) by (apply (le_trans y x z); assumption).
      unfold le in Hyz. congruence.
    + now rewrite IH.
Qed.

(** The result does not depend on the order of the input. *)
Lemma sort_Strings_order_free (l l' : list string) :
  Permutation l l' -> sort_Strings l = sort_Strings l'.
Proof.
  induction 1 as [|x l l' _ IH|x y l|l l' l'' _ IH1 _ IH2];
    cbn [sort_Strings].
  - reflexivity.
  - now rewrite IH.
  - apply insert_sorted_comm.
  - now rewrite IH1.
Qed.

End SortFacts.

(** ** The command formatter and the flags *)

Section Formatting.

Context {collaborators : Collaborators}.

Lemma length_nonempty {A : Type} (l : list A) :
  l <> [] -> Nat.ltb 0 (List.length l) = true.
Proof. destruct l; [congruence | reflexivity]. Qed.

Lemma eqb_nonempty (s : string) : s <> "" -> negb (String.eqb s "") = true.
Proof. intros H. now destruct (String.eqb_spec s ""). Qed.

(** C1, amended: when the formatted inner command carries environment
    assignments and a non-empty working directory, the single string
    given to the remote-exec invocation is the [cd <dir> &&] clause, then
    the quoted environment assignments, then the quoted command tokens. *)
Theorem formatFirecrackerCommand_cd_env_command
        (spec : CommandSpec.t) (name : string) (options : Options.t) :
  let raw := formatRawOrDockerCommand spec firecrackerContainerDir options in
  command.Env raw <> [] ->
  command.Dir raw <> "" ->
  command.Command (formatFirecrackerCommand spec name options)
  = ["ignite"; "exec"; name; "--";
     ("cd " ++ command.Dir raw ++ " && "
        ++ GoString.Join (quoteEnv (command.Env raw)) " " ++ " "
        ++ shellquote_Join (command.Command raw))%string].
Proof.
  intros raw Henv Hdir. unfold formatFirecrackerCommand. fold raw.
  cbn [command.Command].
  rewrite (length_nonempty _ Henv), (eqb_nonempty _ Hdir).
  reflexivity.
Qed.

(** The tokens of the start command. *)
Lemma startCommand_tokens (name workspaceDevice daemonConfigFile : string)
      (options : Options.t) (operations : Operations.t) :
  let fo := Options.FirecrackerOptions options in
  let ro := Options.ResourceOptions options in
  command.Command
    (startCommand name workspaceDevice daemonConfigFile options operations)
  = ["ignite"; "run"; "--runtime"; "docker"; "--network-plugin"; "cni";
     "--cpus"; GoString.Itoa (ResourceOptions.NumCPUs ro);
     "--memory"; ResourceOptions.Memory ro;
     "--size"; ResourceOptions.DiskSpace ro]
    ++ firecrackerCopyfileFlags
         (FirecrackerOptions.VMStartupScriptPath fo) daemonConfigFile
    ++ ["--volumes"; (workspaceDevice ++ ":" ++ firecrackerContainerDir)%string;
        "--ssh"; "--name"; name;
        "--kernel-image"; sanitizeImage (FirecrackerOptions.KernelImage fo);
        sanitizeImage (FirecrackerOptions.Image fo)].
Proof. reflexivity. Qed.


End Formatting.

Lemma formatFirecrackerCommand_cd_env_command_witness :
  command.Command
    (@formatFirecrackerCommand reference_collaborators
       (Reference.spec "" ["echo"; "hello world"] "src" ["A=b c"; "N=1"])
       "vm1" (Reference.options true "img" "kernel" "" ""))
  = ["ignite"; "exec"; "vm1"; "--";
     "cd /work/src && A='b c' N=1 echo 'hello world'"].
Proof.
  apply (@formatFirecrackerCommand_cd_env_command reference_collaborators
           (Reference.spec "" ["echo"; "hello world"] "src" ["A=b c"; "N=1"])
           "vm1" (Reference.options true "img" "kernel" "" "")).
  - vm_compute. discriminate.
  - vm_compute. discriminate.
Defined.

(** C1, as the specification states it, fails: the environment
    assignments do not come first.  With one assignment and the working
    directory /work, the string starts with the [cd] clause, and the
    assignment follows it. *)
Lemma formatFirecrackerCommand_env_not_first :
  command.Command
    (@formatFirecrackerCommand reference_collaborators
       (Reference.spec "" ["echo"; "hi"] "" ["A=b"])
       "vm1" (Reference.options true "img" "kernel" "" ""))
  = ["ignite"; "exec"; "vm1"; "--"; "cd /work && A=b echo hi"]
  /\ command.Command
       (@formatFirecrackerCommand reference_collaborators
          (Reference.spec "" ["echo"; "hi"] "" ["A=b"])
          "vm1" (Reference.options true "img" "kernel" "" ""))
     <> ["ignite"; "exec"; "vm1"; "--"; "A=b cd /work && echo hi"].
Proof.
  split.
  - vm_compute. reflexivity.
  - vm_compute. discriminate.
Qed.


(** ** Setup and teardown *)

Section Lifecycle.

Context {collaborators : Collaborators}.
Variable host : Host.

Lemma setupFirecracker_steps (runner : commandRunner) (logger : Logger)
      (name workspaceDevice tmpDir : string) (options : Options.t)
      (operations : Operations.t) (h : list call) :
  setupFirecracker host runner logger name workspaceDevice tmpDir
                   options operations h
  = let (config, h1) := daemonConfigStep host tmpDir options h in
    match snd config with
    | Some e => (Some e, h1)
    | None =>
        let (err, h2) :=
          RunCommand (startCommand name workspaceDevice (fst config)
                                   options operations) logger h1 in
        match err with
        | Some e => (Some (ErrWrap e "failed to start firecracker vm"), h2)
        | None =>
            if negb (String.eqb (FirecrackerOptions.VMStartupScriptPath
                                   (Options.FirecrackerOptions options)) "")
            then
              let (err', h3) :=
                RunCommand (startupScriptCommand name options operations)
                           logger h2 in
              match err' with
              | Some e => (Some (ErrWrap e "failed to run startup script"), h3)
              | None => (None, h3)
              end
            else (None, h2)
        end
    end.
Proof.
  unfold setupFirecracker, bind, ret.
  destruct (daemonConfigStep host tmpDir options h) as [[dcf [e|]] h1];
    cbn [fst snd]; [reflexivity|].
  destruct (RunCommand _ logger h1) as [[e|] h2]; cbn [errors_Wrap];
    [reflexivity|].
  destruct (negb _); [|reflexivity].
  destruct (RunCommand _ logger h2) as [[e|] h3]; reflexivity.
Qed.

Lemma newDockerDaemonConfig_steps (tmpDir mirrorAddress : string)
      (h : list call) :
  let name := path_Join [tmpDir; dockerDaemonConfigFilename] in
  let content := daemon_config_content mirrorAddress in
  newDockerDaemonConfig host tmpDir mirrorAddress h
  = match outcome host h (OsCreate name) with
    | Some e =>
        (("", Some (ErrWrap e "creating temp file for docker daemon config")),
         h ++ [OsCreate name])
    | None =>
        let h1 := h ++ [OsCreate name] in
        let h2 := h1 ++ [OsWriteFile name content os_ModePerm] in
        ((name,
          errors_Append (outcome host h1 (OsWriteFile name content os_ModePerm))
                        (outcome host h2 (FileClose name))),
         h2 ++ [FileClose name])
    end.
Proof.
  cbv zeta. unfold newDockerDaemonConfig, bind, ret, perform.
  destruct (outcome host h (OsCreate _)); reflexivity.
Qed.

Lemma daemonConfigStep_history (tmpDir : string) (options : Options.t)
      (h : list call) :
  exists files,
    snd (daemonConfigStep host tmpDir options h) = h ++ files
    /\ forallb is_file_request files = true.
Proof.
  unfold daemonConfigStep.
  destruct (negb _).
  - rewrite newDockerDaemonConfig_steps. cbv zeta.
    destruct (outcome host h (OsCreate _)); cbn [snd].
    + eexists. split; [reflexivity | reflexivity].
    + eexists. rewrite <- !app_assoc. split; [reflexivity | reflexivity].
  - exists []. cbn. now rewrite app_nil_r.
Qed.

Lemma defaultRunner_RunCommand (c : command.t) (logger : Logger)
      (h : list call) :
  @RunCommand (defaultRunner host) c logger h
  = (outcome host h (RunCommandCall c logger), h ++ [RunCommandCall c logger]).
Proof. reflexivity. Qed.

(** C3, amended: once the daemon config step has passed, the first
    subprocess that Setup invokes is ignite with the arguments
    [run --runtime docker --network-plugin cni --cpus <n> --memory <mem>
    --size <disk> [copy-files flags] --volumes <device>:/work --ssh
    --name <name> --kernel-image <sanitized kernel> <sanitized image>], in
    this order: the kernel image passes through the sanitizer as the base
    image does. *)
Theorem setup_start_invocation (logger : Logger)
        (name workspaceDevice tmpDir : string) (options : Options.t)
        (operations : Operations.t) (h h1 : list call)
        (daemonConfigFile : string) :
  let fo := Options.FirecrackerOptions options in
  let ro := Options.ResourceOptions options in
  let start :=
    startCommand name workspaceDevice daemonConfigFile options operations in
  daemonConfigStep host tmpDir options h = ((daemonConfigFile, None), h1) ->
  (exists files rest,
      forallb is_file_request files = true
      /\ snd (setupFirecracker host (defaultRunner host) logger name
                               workspaceDevice tmpDir options operations h)
         = h ++ files ++ RunCommandCall start logger :: rest)
  /\ command.Command start
     = ["ignite"; "run"; "--runtime"; "docker"; "--network-plugin"; "cni";
        "--cpus"; GoString.Itoa (ResourceOptions.NumCPUs ro);
        "--memory"; ResourceOptions.Memory ro;
        "--size"; ResourceOptions.DiskSpace ro]
       ++ firecrackerCopyfileFlags
            (FirecrackerOptions.VMStartupScriptPath fo) daemonConfigFile
       ++ ["--volumes"; (workspaceDevice ++ ":" ++ "/work")%string;
           "--ssh"; "--name"; name;
           "--kernel-image"; sanitizeImage (FirecrackerOptions.KernelImage fo);
           sanitizeImage (FirecrackerOptions.Image fo)].
Proof.
  intros fo ro start Hstep. split; [|apply startCommand_tokens].
  destruct (daemonConfigStep_history tmpDir options h) as (files & Hh & Hf).
  rewrite Hstep in Hh. cbn [snd] in Hh. subst h1.
  exists files. rewrite setupFirecracker_steps, Hstep. cbn [fst snd].
  rewrite defaultRunner_RunCommand. fold start.
  destruct (outcome host (h ++ files) (RunCommandCall start logger)).
  - exists []. split; [exact Hf|]. cbn [snd]. now rewrite <- app_assoc.
  - destruct (negb _).
    + rewrite defaultRunner_RunCommand.
      exists [RunCommandCall (startupScriptCommand name options operations)
                             logger].
      split; [exact Hf|].
      destruct (outcome host _ _); cbn [snd]; now rewrite <- !app_assoc.
    + exists []. split; [exact Hf|]. cbn [snd]. now rewrite <- app_assoc.
Qed.

(** C4, amended: a failure of any of the three steps aborts Setup, which
    makes no further request and returns an error.  The error is the one
    the daemon config step returned, which wraps a failure to create the
    file with the context of that step; a failure of the start invocation
    and a failure of the startup script are wrapped with the context of
    their step.  After a failed startup script the history ends with that
    invocation: the VM is left running and Setup attempts no cleanup. *)
Theorem setup_failure_aborts (runner : commandRunner) (logger : Logger)
        (name workspaceDevice tmpDir : string) (options : Options.t)
        (operations : Operations.t) (h : list call) :
  let fo := Options.FirecrackerOptions options in
  let setup :=
    setupFirecracker host runner logger name workspaceDevice tmpDir
                     options operations h in
  (forall daemonConfigFile e h1,
      daemonConfigStep host tmpDir options h = ((daemonConfigFile, Some e), h1) ->
      setup = (Some e, h1))
  /\ (forall e,
         FirecrackerOptions.DockerRegistryMirrorAddress fo <> "" ->
         outcome host h (OsCreate (path_Join [tmpDir; "docker-daemon.json"]))
         = Some e ->
         setup
         = (Some (ErrWrap e "creating temp file for docker daemon config"),
            h ++ [OsCreate (path_Join [tmpDir; "docker-daemon.json"])]))
  /\ (forall daemonConfigFile h1 e h2,
         daemonConfigStep host tmpDir options h = ((daemonConfigFile, None), h1) ->
         RunCommand (startCommand name workspaceDevice daemonConfigFile
                                  options operations) logger h1
         = (Some e, h2) ->
         setup = (Some (ErrWrap e "failed to start firecracker vm"), h2))
  /\ (forall daemonConfigFile h1 h2 e h3,
         daemonConfigStep host tmpDir options h = ((daemonConfigFile, None), h1) ->
         RunCommand (startCommand name workspaceDevice daemonConfigFile
                                  options operations) logger h1
         = (None, h2) ->
         FirecrackerOptions.VMStartupScriptPath fo <> "" ->
         RunCommand (startupScriptCommand name options operations) logger h2
         = (Some e, h3) ->
         setup = (Some (ErrWrap e "failed to run startup script"), h3)).
Proof.
  intros fo setup. unfold setup. rewrite setupFirecracker_steps.
  split; [|split; [|split]].
  - intros dcf e h1 ->. reflexivity.
  - intros e Hm Hc. unfold daemonConfigStep. fold fo.
    rewrite (eqb_nonempty _ Hm), newDockerDaemonConfig_steps. cbv zeta.
    unfold dockerDaemonConfigFilename. rewrite Hc. reflexivity.
  - intros dcf h1 e h2 -> Hs. cbn [fst snd]. rewrite Hs. reflexivity.
  - intros dcf h1 h2 e h3 -> Hs Hp Hx. cbn [fst snd]. rewrite Hs.
    fold fo. rewrite (eqb_nonempty _ Hp), Hx. reflexivity.
Qed.

(** C5: teardown asks for the VM to be removed, then for the temporary
    directory to be removed, whether or not the first request failed; a
    failure of either is logged; and the error returned is always nil.
    This holds for every runner state and history, hence also without a
    Setup before it and on a second call. *)
Theorem teardown_best_effort (runner : commandRunner) (logger : Logger)
        (name tmpDir : string) (operations : Operations.t) (h : list call) :
  let remove := removeCommand name operations in
  let logged (msg : string) (err : option error) : list call :=
    match err with
    | Some _ =>
        [Log15Error msg [("name", LogString name); ("err", LogError err)]]
    | None => []
    end in
  command.Command remove = ["ignite"; "rm"; "-f"; name]
  /\ (let (err1, h1) := RunCommand remove logger h in
      let h2 := h1 ++ logged "Failed to remove firecracker vm" err1 in
      let err2 := outcome host h2 (OsRemoveAll tmpDir) in
      teardownFirecracker host runner logger name tmpDir operations h
      = (None,
         h2 ++ [OsRemoveAll tmpDir]
            ++ logged "Failed to remove firecracker state tmp dir" err2))
  /\ (forall (r : firecrackerRunner.t) (h0 : list call),
         exists h1 h2,
           Teardown (Runner := firecrackerRunner_Runner host) r h0
           = ((r, None), h1)
           /\ Teardown (Runner := firecrackerRunner_Runner host) r h1
              = ((r, None), h2)).
Proof.
  intros remove logged. split; [reflexivity|]. split.
  - unfold teardownFirecracker, bind, ret, perform, log15_Error. fold remove.
    destruct (RunCommand remove logger h) as [[e1|] h1]; cbn [logged].
    + destruct (outcome host _ (OsRemoveAll tmpDir)); cbn [logged];
        now rewrite <- ?app_assoc.
    + rewrite app_nil_r.
      destruct (outcome host _ (OsRemoveAll tmpDir)); cbn [logged];
        now rewrite <- ?app_assoc, ?app_nil_r.
  - assert (T : forall r h0, exists h1,
                 Teardown (Runner := firecrackerRunner_Runner host) r h0
                 = ((r, None), h1)).
    { intros r h0. cbn [Teardown firecrackerRunner_Runner].
      unfold teardownFirecracker, bind, ret, perform, log15_Error.
      destruct (RunCommand _ _ h0) as [[e1|] h1];
        destruct (outcome host _ (OsRemoveAll _)); eexists; reflexivity. }
    intros r h0. destruct (T r h0) as [h1 E1]. destruct (T r h1) as [h2 E2].
    now exists h1, h2.
Qed.

(** What Setup adds to the history: the file requests of the daemon
    config step, then the subprocess invocations. *)
Lemma setup_requests (logger : Logger)
      (name workspaceDevice tmpDir : string) (options : Options.t)
      (operations : Operations.t) (h : list call) :
  let fo := Options.FirecrackerOptions options in
  let mirror := FirecrackerOptions.DockerRegistryMirrorAddress fo in
  let path := path_Join [tmpDir; "docker-daemon.json"] in
  let content := daemon_config_content mirror in
  exists files runs,
    snd (setupFirecracker host (defaultRunner host) logger name
                          workspaceDevice tmpDir options operations h)
    = h ++ files ++ runs
    /\ forallb (fun c => negb (is_file_request c)) runs = true
    /\ (mirror = "" -> files = [])
    /\ (mirror <> "" ->
        files = match outcome host h (OsCreate path) with
                | Some _ => [OsCreate path]
                | None => [OsCreate path;
                           OsWriteFile path content os_ModePerm;
                           FileClose path]
                end).
Proof.
  intros fo mirror path content.
  rewrite setupFirecracker_steps. unfold daemonConfigStep.
  fold fo. fold mirror.
  assert (Hruns : forall files h1 (dcf : string),
             h1 = h ++ files ->
             exists runs,
               snd (let (err, h2) :=
                      @RunCommand (defaultRunner host)
                        (startCommand name workspaceDevice dcf
                                      options operations) logger h1 in
                    match err with
                    | Some e =>
                        (Some (ErrWrap e "failed to start firecracker vm"), h2)
                    | None =>
                        if negb (String.eqb
                                   (FirecrackerOptions.VMStartupScriptPath fo) "")
                        then
                          let (err', h3) :=
                            @RunCommand (defaultRunner host)
                              (startupScriptCommand name options operations)
                              logger h2 in
                          match err' with
                          | Some e =>
                              (Some (ErrWrap e "failed to run startup script"),
                               h3)
                          | None => (None, h3)
                          end
                        else (None, h2)
                    end)
               = h ++ files ++ runs
               /\ forallb (fun c => negb (is_file_request c)) runs = true).
  { intros files h1 dcf ->. rewrite defaultRunner_RunCommand.
    destruct (outcome host _ _).
    - eexists. cbn [snd]. rewrite <- app_assoc. split; reflexivity.
    - destruct (negb _).
      + rewrite defaultRunner_RunCommand.
        destruct (outcome host _ _); cbn [snd]; rewrite <- !app_assoc;
          (eexists; split; reflexivity).
      + eexists. cbn [snd]. rewrite <- app_assoc. split; reflexivity. }
  destruct (String.eqb_spec mirror "") as [E | E]; cbn [negb].
  - unfold ret. cbn [fst snd].
    destruct (Hruns [] h "" (eq_sym (app_nil_r h))) as (runs & Hs & Hr).
    exists [], runs. split; [exact Hs|]. split; [exact Hr|].
    split; [reflexivity | congruence].
  - rewrite newDockerDaemonConfig_steps. cbv zeta.
    unfold dockerDaemonConfigFilename. fold path. fold content.
    destruct (outcome host h (OsCreate path)) as [e|]; cbn [fst snd].
    + exists [OsCreate path], []. split; [reflexivity|].
      split; [reflexivity|]. split; [congruence | reflexivity].
    + set (files := [OsCreate path; OsWriteFile path content os_ModePerm;
                     FileClose path]).
      assert (Hh : ((h ++ [OsCreate path])
                      ++ [OsWriteFile path content os_ModePerm])
                     ++ [FileClose path] = h ++ files)
        by now rewrite <- !app_assoc.
      destruct (errors_Append _ _).
      * exists files, []. cbn [snd]. rewrite Hh.
        split; [reflexivity|]. split; [reflexivity|].
        split; [congruence | reflexivity].
      * destruct (Hruns files _ path Hh) as (runs & Hs & Hr).
        exists files, runs. split; [exact Hs|]. split; [exact Hr|].
        split; [congruence | reflexivity].
Qed.

Lemma not_file_request_in (c : call) (runs : list call) :
  forallb (fun c => negb (is_file_request c)) runs = true ->
  In c runs -> is_file_request c = false.
Proof.
  intros Hall Hin. rewrite forallb_forall in Hall.
  apply Hall in Hin. now destruct (is_file_request c).
Qed.

(** C8: Setup asks for a daemon config file exactly when a registry
    mirror address is configured; the file it creates and writes is
    docker-daemon.json joined to the temporary directory; what it writes
    is the marshalled config of that one mirror, and for the mirror
    http://mirror.local this is [{"registry-mirrors":["http://mirror.local"]}]. *)
Theorem setup_daemon_config (logger : Logger)
        (name workspaceDevice tmpDir : string) (options : Options.t)
        (operations : Operations.t) (h : list call) :
  let mirror :=
    FirecrackerOptions.DockerRegistryMirrorAddress
      (Options.FirecrackerOptions options) in
  let path := path_Join [tmpDir; "docker-daemon.json"] in
  let content := daemon_config_content mirror in
  (exists new,
      snd (setupFirecracker host (defaultRunner host) logger name
                            workspaceDevice tmpDir options operations h)
      = h ++ new
      /\ ((exists p, In (OsCreate p) new) <-> mirror <> "")
      /\ (forall p, In (OsCreate p) new -> p = path)
      /\ (forall p data perm,
             In (OsWriteFile p data perm) new ->
             mirror <> "" /\ p = path /\ data = content)
      /\ (mirror <> "" ->
          outcome host h (OsCreate path) = None ->
          In (OsWriteFile path content os_ModePerm) new))
  /\ daemon_config_content "http://mirror.local" = mirror_local_config.
Proof.
  intros mirror path content. split; [|reflexivity].
  destruct (setup_requests logger name workspaceDevice tmpDir options
                           operations h)
    as (files & runs & Hs & Hr & Hnone & Hsome).
  fold mirror path content in Hnone, Hsome.
  exists (files ++ runs). split; [exact Hs|].
  assert (Hfiles : forall c, is_file_request c = true ->
                             In c (files ++ runs) -> In c files).
  { intros c Hc Hin. apply in_app_or in Hin as [Hin | Hin]; [exact Hin|].
    rewrite (not_file_request_in c runs Hr Hin) in Hc. discriminate. }
  destruct (String.eqb_spec mirror "") as [E | E].
  - assert (Hno : forall c, is_file_request c = true ->
                            ~ In c (files ++ runs)).
    { intros c Hc Hin. apply (Hfiles c Hc) in Hin.
      rewrite (Hnone E) in Hin. destruct Hin. }
    split; [split|split; [|split]].
    + intros [p Hin]. now apply (Hno (OsCreate p) eq_refl) in Hin.
    + congruence.
    + intros p Hin. now apply (Hno (OsCreate p) eq_refl) in Hin.
    + intros p data perm Hin.
      now apply (Hno (OsWriteFile p data perm) eq_refl) in Hin.
    + congruence.
  - specialize (Hsome E).
    assert (Hin : forall c, In c files ->
                            c = OsCreate path
                            \/ c = OsWriteFile path content os_ModePerm
                            \/ c = FileClose path).
    { intros c Hc. rewrite Hsome in Hc.
      destruct (outcome host h (OsCreate path)); cbn [In] in Hc;
        intuition auto. }
    split; [split|split; [|split]].
    + intros _. exact E.
    + intros _. exists path. apply in_or_app. left. rewrite Hsome.
      destruct (outcome host h (OsCreate path)); now left.
    + intros p Hp. apply (Hfiles (OsCreate p) eq_refl) in Hp.
      destruct (Hin _ Hp) as [H | [H | H]]; congruence.
    + intros p data perm Hp.
      apply (Hfiles (OsWriteFile p data perm) eq_refl) in Hp.
      destruct (Hin _ Hp) as [H | [H | H]]; try discriminate.
      injection H as -> -> _. now repeat split.
    + intros _ Hc. apply in_or_app. left. rewrite Hsome, Hc.
      right. now left.
Qed.

(** C10: with a startup script configured, the pair that copies it into
    the VM is [<path>:<path>], among the pairs of the start command's
    copy-files flags; and once the VM has started, the next invocation is
    [ignite exec <name> -- <path>], the script by the same path. *)
Theorem setup_startup_script (logger : Logger)
        (name workspaceDevice tmpDir : string) (options : Options.t)
        (operations : Operations.t) (h h1 : list call)
        (daemonConfigFile : string) :
  let script :=
    FirecrackerOptions.VMStartupScriptPath
      (Options.FirecrackerOptions options) in
  let start :=
    startCommand name workspaceDevice daemonConfigFile options operations in
  let startup := startupScriptCommand name options operations in
  let pairs := sort_Strings (copyfiles script daemonConfigFile) in
  script <> "" ->
  daemonConfigStep host tmpDir options h = ((daemonConfigFile, None), h1) ->
  outcome host h1 (RunCommandCall start logger) = None ->
  snd (setupFirecracker host (defaultRunner host) logger name
                        workspaceDevice tmpDir options operations h)
  = h1 ++ [RunCommandCall start logger; RunCommandCall startup logger]
  /\ command.Command startup = ["ignite"; "exec"; name; "--"; script]
  /\ In (script ++ ":" ++ script)%string pairs
  /\ exists before after,
      command.Command start
      = before ++ intersperse "--copy-files" pairs ++ after.
Proof.
  intros script start startup pairs Hscript Hstep Hstart.
  split; [|split; [reflexivity|split]].
  - rewrite setupFirecracker_steps, Hstep. cbn [fst snd].
    rewrite defaultRunner_RunCommand. fold start. rewrite Hstart.
    fold script. rewrite (eqb_nonempty _ Hscript).
    rewrite defaultRunner_RunCommand. fold startup.
    destruct (outcome host (h1 ++ _) _); cbn [snd]; now rewrite <- app_assoc.
  - apply (Permutation_in _
             (Permutation_sym (SortFacts.sort_Strings_perm _))).
    unfold copyfiles. rewrite (eqb_nonempty _ Hscript).
    apply in_or_app. left. now left.
  - unfold start. rewrite startCommand_tokens. cbv zeta.
    eexists _, _. reflexivity.
Qed.

End Lifecycle.

(** ** The bare tier *)

Section BareTier.

Context {collaborators : Collaborators}.
Variable host : Host.

(** C9: with Firecracker disabled, [NewRunner] gives the bare-tier runner;
    its Setup and its Teardown return nil, make no request and leave the
    runner as it is; its Run, for a specification without an image, calls
    the execution primitive once, with the command tokens of the
    specification, in the working directory of the specification taken
    from the runner's directory, and returns what the primitive returns. *)
Theorem NewRunner_bare_tier (dir : string) (logger : Logger)
        (options : Options.t) (operations : Operations.t) (h : list call) :
  FirecrackerOptions.Enabled (Options.FirecrackerOptions options) = false ->
  let r := NewRunner dir logger options operations in
  r = DockerRunner {| dockerRunner.dir := dir;
                      dockerRunner.logger := logger;
                      dockerRunner.options := options |}
  /\ Setup (Runner := runner_Runner host) r h = ((r, None), h)
  /\ Teardown (Runner := runner_Runner host) r h = ((r, None), h)
  /\ forall spec,
      CommandSpec.Image spec = "" ->
      let c := {| command.Key := CommandSpec.Key spec;
                  command.Command := CommandSpec.Command spec;
                  command.Dir := filepath_Join dir (CommandSpec.Dir spec);
                  command.Env := CommandSpec.Env spec;
                  command.Operation := CommandSpec.Operation spec |} in
      Run (Runner := runner_Runner host) r spec h
      = ((r, outcome host h (RunCommandCall c logger)),
         h ++ [RunCommandCall c logger]).
Proof.
  intros Hoff r. unfold r, NewRunner. rewrite Hoff. cbn [negb].
  split; [reflexivity|]. split; [reflexivity|]. split; [reflexivity|].
  intros spec Himg.
  cbn [Run runner_Runner dockerRunner_Runner dockerRunner.dir
           dockerRunner.logger dockerRunner.options].
  unfold lift, bind, ret, runCommand, perform, formatRawOrDockerCommand.
  rewrite Himg. reflexivity.
Qed.

End BareTier.

(** ** The properties on concrete inputs *)

Lemma NewRunner_bare_tier_witness :
  Run (Runner := @runner_Runner reference_collaborators Reference.quiet_host)
      (NewRunner "/tmp/job" Reference.logger
                 (Reference.options false "" "" "" "") Reference.operations)
      (Reference.spec "" ["echo"; "hi"] "" []) []
  = ((NewRunner "/tmp/job" Reference.logger
                (Reference.options false "" "" "" "") Reference.operations,
      None),
     [RunCommandCall
        {| command.Key := "step";
           command.Command := ["echo"; "hi"];
           command.Dir := "/tmp/job";
           command.Env := [];
           command.Operation := Reference.operation "exec" |}
        Reference.logger]).
Proof.
  apply (proj2 (proj2 (proj2
    (@NewRunner_bare_tier reference_collaborators Reference.quiet_host
       "/tmp/job" Reference.logger (Reference.options false "" "" "" "")
       Reference.operations [] eq_refl)))
    (Reference.spec "" ["echo"; "hi"] "" []) eq_refl).
Defined.

Lemma setup_start_invocation_witness :
  command.Command
    (@startCommand reference_collaborators "vm1" "/dev/loop0"
       "/tmp/x/docker-daemon.json"
       (Reference.options true ("img:v1@sha256:" ++ Reference.hex64)
                          ("kernel:5.10@sha256:" ++ Reference.hex64)
                          "/opt/startup.sh" "http://mirror.local")
       Reference.operations)
  = ["ignite"; "run"; "--runtime"; "docker"; "--network-plugin"; "cni";
     "--cpus"; "4"; "--memory"; "12G"; "--size"; "20G";
     "--copy-files";
     "/opt/startup.sh:/opt/startup.sh,/tmp/x/docker-daemon.json:/etc/docker/daemon.json";
     "--volumes"; "/dev/loop0:/work"; "--ssh"; "--name"; "vm1";
     "--kernel-image"; "kernel:5.10"; "img:v1"].
Proof.
  refine (eq_trans
    (proj2 (@setup_start_invocation reference_collaborators
              Reference.quiet_host Reference.logger "vm1" "/dev/loop0" "/tmp/x"
              (Reference.options true ("img:v1@sha256:" ++ Reference.hex64)
                                 ("kernel:5.10@sha256:" ++ Reference.hex64)
                                 "/opt/startup.sh" "http://mirror.local")
              Reference.operations [] _ "/tmp/x/docker-daemon.json" _)) _).
  - vm_compute. reflexivity.
  - vm_compute. reflexivity.
Defined.

(** C3, as the specification states it, fails: the token after
    [--kernel-image] is not the kernel image of the options when that
    image carries a digest; it is the sanitized one. *)
Lemma setup_start_kernel_sanitized :
  snd (@setupFirecracker reference_collaborators Reference.quiet_host
         (defaultRunner Reference.quiet_host) Reference.logger
         "vm1" "/dev/loop0" "/tmp/x"
         (Reference.options true "img"
                            ("kernel:5.10@sha256:" ++ Reference.hex64) "" "")
         Reference.operations [])
  = [RunCommandCall
       {| command.Key := "setup.firecracker.start";
          command.Command :=
            ["ignite"; "run"; "--runtime"; "docker"; "--network-plugin"; "cni";
             "--cpus"; "4"; "--memory"; "12G"; "--size"; "20G";
             "--volumes"; "/dev/loop0:/work"; "--ssh"; "--name"; "vm1";
             "--kernel-image"; "kernel:5.10"; "img"];
          command.Dir := "";
          command.Env := [];
          command.Operation := Reference.operation "setup.firecracker.start" |}
       Reference.logger]
  /\ "kernel:5.10" <> ("kernel:5.10@sha256:" ++ Reference.hex64)%string.
Proof.
  split.
  - vm_compute. reflexivity.
  - vm_compute. discriminate.
Qed.

Lemma setup_failure_aborts_witness :
  @setupFirecracker reference_collaborators
    (Reference.failing_host (Reference.has_key "setup.startup-script")
                            (ErrNew "exit status 1"))
    (defaultRunner
       (Reference.failing_host (Reference.has_key "setup.startup-script")
                               (ErrNew "exit status 1")))
    Reference.logger "vm1" "/dev/loop0" "/tmp/x"
    (Reference.options true "img" "kernel" "/opt/startup.sh" "")
    Reference.operations []
  = (Some (ErrWrap (ErrNew "exit status 1") "failed to run startup script"),
     [RunCommandCall
        (@startCommand reference_collaborators "vm1" "/dev/loop0" ""
           (Reference.options true "img" "kernel" "/opt/startup.sh" "")
           Reference.operations) Reference.logger;
      RunCommandCall
        (startupScriptCommand "vm1"
           (Reference.options true "img" "kernel" "/opt/startup.sh" "")
           Reference.operations) Reference.logger]).
Proof.
  apply (proj2 (proj2 (proj2
    (@setup_failure_aborts reference_collaborators
       (Reference.failing_host (Reference.has_key "setup.startup-script")
                               (ErrNew "exit status 1"))
       (defaultRunner
          (Reference.failing_host (Reference.has_key "setup.startup-script")
                                  (ErrNew "exit status 1")))
       Reference.logger "vm1" "/dev/loop0" "/tmp/x"
       (Reference.options true "img" "kernel" "/opt/startup.sh" "")
       Reference.operations [])))
    "" []
    [RunCommandCall
       (@startCommand reference_collaborators "vm1" "/dev/loop0" ""
          (Reference.options true "img" "kernel" "/opt/startup.sh" "")
          Reference.operations) Reference.logger]
    (ErrNew "exit status 1")).
  - reflexivity.
  - reflexivity.
  - discriminate.
  - reflexivity.
Defined.

(** C4, as the specification states it, fails: when writing the daemon
    config file fails, Setup aborts with the error of the write as the
    daemon config step returns it, and no context of the step wraps it. *)
Lemma setup_write_failure_unwrapped :
  @setupFirecracker reference_collaborators
    (Reference.failing_host Reference.is_write
                            (ErrNew "no space left on device"))
    (defaultRunner
       (Reference.failing_host Reference.is_write
                               (ErrNew "no space left on device")))
    Reference.logger "vm1" "/dev/loop0" "/tmp/x"
    (Reference.options true "img" "kernel" "" "http://mirror.local")
    Reference.operations []
  = (Some (ErrMulti [ErrNew "no space left on device"]),
     [OsCreate "/tmp/x/docker-daemon.json";
      OsWriteFile "/tmp/x/docker-daemon.json" mirror_local_config os_ModePerm;
      FileClose "/tmp/x/docker-daemon.json"])
  /\ ~ wrapped (Some (ErrMulti [ErrNew "no space left on device"])).
Proof.
  split.
  - vm_compute. reflexivity.
  - intros (msg & cause & H). discriminate.
Qed.

Lemma setup_startup_script_witness :
  snd (@setupFirecracker reference_collaborators Reference.quiet_host
         (defaultRunner Reference.quiet_host) Reference.logger
         "vm1" "/dev/loop0" "/tmp/x"
         (Reference.options true "img" "kernel" "/opt/startup.sh" "")
         Reference.operations [])
  = [RunCommandCall
       (@startCommand reference_collaborators "vm1" "/dev/loop0" ""
          (Reference.options true "img" "kernel" "/opt/startup.sh" "")
          Reference.operations) Reference.logger;
     RunCommandCall
       (startupScriptCommand "vm1"
          (Reference.options true "img" "kernel" "/opt/startup.sh" "")
          Reference.operations) Reference.logger]
  /\ command.Command
       (startupScriptCommand "vm1"
          (Reference.options true "img" "kernel" "/opt/startup.sh" "")
          Reference.operations)
     = ["ignite"; "exec"; "vm1"; "--"; "/opt/startup.sh"]
  /\ In "/opt/startup.sh:/opt/startup.sh"
        (sort_Strings (copyfiles "/opt/startup.sh" "")).
Proof.
  pose proof (@setup_startup_script reference_collaborators
                Reference.quiet_host Reference.logger "vm1" "/dev/loop0"
                "/tmp/x"
                (Reference.options true "img" "kernel" "/opt/startup.sh" "")
                Reference.operations [] [] "") as H.
  cbv zeta in H.
  destruct H as (H1 & H2 & H3 & _).
  - discriminate.
  - reflexivity.
  - reflexivity.
  - split; [exact H1|]. split; [exact H2 | exact H3].
Defined.

(** * Further properties of the package *)

(** ** sanitizeImage on arbitrary text *)

Lemma takeWhile_dropWhile (p : ascii -> bool) (s : string) :
  s = (takeWhile p s ++ dropWhile p s)%string.
Proof.
  induction s as [|a s IH]; cbn [takeWhile dropWhile]; [reflexivity|].
  destruct (p a); cbn [append]; [now rewrite <- IH | reflexivity].
Qed.

Lemma dropWhile_head (p : ascii -> bool) (s : string) (a : ascii) (u : string) :
  dropWhile p s = String a u -> p a = false.
Proof.
  induction s as [|b s IH]; cbn [dropWhile]; [discriminate|].
  destruct (p b) eqn:Eb; [exact IH|]. intros [= <- _]. exact Eb.
Qed.

Lemma takeWhile_stop (p : ascii -> bool) (s : string) (c : ascii) (u : string) :
  p c = false -> takeWhile p (s ++ String c u) = takeWhile p s.
Proof.
  intros Hc. induction s as [|a s IH]; cbn [append takeWhile].
  - now rewrite Hc.
  - destruct (p a); [now rewrite IH | reflexivity].
Qed.

Lemma dropWhile_append (p : ascii -> bool) (s u : string) :
  dropWhile p s <> "" -> dropWhile p (s ++ u) = (dropWhile p s ++ u)%string.
Proof.
  induction s as [|a s IH]; cbn [append dropWhile]; [congruence|].
  destruct (p a); [exact IH | reflexivity].
Qed.

Lemma all_chars_dropWhile (p q : ascii -> bool) (s : string) :
  all_chars q s = true -> all_chars q (dropWhile p s) = true.
Proof.
  induction s as [|a s IH]; cbn [all_chars dropWhile]; [reflexivity|].
  intros H. destruct (p a); [|exact H].
  apply andb_true_iff in H as [_ H]. now apply IH.
Qed.

Lemma all_chars_false_dropWhile (p : ascii -> bool) (s : string) :
  all_chars p s = false -> dropWhile p s <> "".
Proof.
  intros H E. apply dropWhile_empty_all in E. congruence.
Qed.

Lemma name_and_tag_cut (s t : string) :
  all_chars tag_char s = true ->
  dropWhile is_colon_or_at s <> "" ->
  name_and_tag (s ++ String "@" t) = name_and_tag s.
Proof.
  intros Hs Hfrom. unfold name_and_tag.
  rewrite (dropWhile_append _ s _ Hfrom).
  destruct (dropWhile is_colon_or_at s) as [|a from]; [congruence|].
  set (f := String a from) in *.
  change (String a (from ++ String "@" t)) with (f ++ String "@" t)%string.
  cbv iota.
  rewrite (takeWhile_stop name_char f "@" t eq_refl).
  destruct (dropWhile name_char f) as [|b r] eqn:Er.
  - assert (Hall : all_chars name_char f = true)
      by now apply dropWhile_empty_all.
    rewrite (dropWhile_all name_char f _ Hall). cbn [dropWhile name_char].
    change (name_char "@") with false. cbv iota.
    change (Ascii.eqb "@" ":") with false. cbn [andb].
    unfold f. reflexivity.
  - rewrite dropWhile_append by (rewrite Er; discriminate).
    rewrite Er. cbn [append].
    rewrite (takeWhile_stop tag_char r "@" t eq_refl).
    unfold f. reflexivity.
Qed.

(** X1: sanitizeImage drops whatever follows the first [@], digest or
    not: for text [s] without [@] that holds a character other than [:],
    the result on [s@t] is the result on [s]. *)
Theorem sanitizeImage_drops_after_at (s t : string) :
  all_chars tag_char s = true ->
  all_chars is_colon_or_at s = false ->
  sanitizeImage (s ++ String "@" t) = sanitizeImage s.
Proof.
  intros Hs Hname. rewrite !sanitizeImage_name_and_tag.
  apply name_and_tag_cut; [exact Hs|].
  now apply all_chars_false_dropWhile.
Qed.

Lemma sanitizeImage_drops_after_at_witness :
  sanitizeImage ("repo/img:tag" ++ String "@" "latest") = "repo/img:tag".
Proof.
  rewrite (sanitizeImage_drops_after_at "repo/img:tag" "latest");
    reflexivity.
Defined.

Lemma name_and_tag_piece (image : string) :
  exists prefix suffix,
    image = (prefix ++ name_and_tag image ++ suffix)%string
    /\ all_chars is_colon_or_at prefix = true
    /\ (suffix = ""
        \/ exists a u, suffix = String a u /\ is_colon_or_at a = true).
Proof.
  unfold name_and_tag.
  pose proof (takeWhile_dropWhile is_colon_or_at image) as Hsplit.
  destruct (dropWhile is_colon_or_at image) as [|a from] eqn:Ef.
  - exists "", "". cbn [append]. rewrite append_empty_r.
    split; [reflexivity|]. split; [reflexivity | now left].
  - exists (takeWhile is_colon_or_at image).
    set (f := String a from) in *.
    pose proof (takeWhile_dropWhile name_char f) as Hf.
    assert (Hsep : forall b r, dropWhile name_char f = String b r ->
                               is_colon_or_at b = true).
    { intros b r E. apply dropWhile_head in E. unfold name_char in E.
      now destruct (is_colon_or_at b). }
    destruct (dropWhile name_char f) as [|b r] eqn:Er; cbv iota.
    + exists "". rewrite append_empty_r in *. rewrite <- Hf.
      split; [exact Hsplit|]. split; [apply all_chars_takeWhile | now left].
    + destruct (Ascii.eqb b ":"
                && negb (String.eqb (takeWhile tag_char r) "")) eqn:Et.
      * exists (dropWhile tag_char r).
        apply andb_true_iff in Et as [Eb _].
        apply Ascii.eqb_eq in Eb. subst b.
        split; [|split; [apply all_chars_takeWhile|]].
        -- rewrite Hsplit at 1. f_equal. rewrite Hf at 1.
           unfold GoString.colon. rewrite !append_assoc. f_equal.
           cbn [append]. f_equal. apply takeWhile_dropWhile.
        -- destruct (dropWhile tag_char r) as [|c u] eqn:Ed; [now left|].
           right. exists c, u. split; [reflexivity|].
           apply dropWhile_head in Ed. unfold tag_char, is_at in Ed.
           unfold is_colon_or_at.
           destruct (Ascii.eqb c "@"); [apply orb_true_r | discriminate].
      * exists (String b r).
        split; [|split; [apply all_chars_takeWhile|]].
        -- rewrite Hsplit at 1. f_equal. exact Hf.
        -- right. exists b, r. split; [reflexivity | now apply (Hsep b r)].
Qed.

(** X2: sanitizeImage only cuts: its result is one contiguous piece of
    the input; what it leaves out before the piece is made of [:] and [@]
    only, and what it leaves out after it is empty or starts with [:] or
    [@]; hence the result is never longer than the input. *)
Theorem sanitizeImage_is_piece (image : string) :
  (exists prefix suffix,
      image = (prefix ++ sanitizeImage image ++ suffix)%string
      /\ all_chars is_colon_or_at prefix = true
      /\ (suffix = ""
          \/ exists a u, suffix = String a u /\ is_colon_or_at a = true))
  /\ String.length (sanitizeImage image) <= String.length image.
Proof.
  rewrite sanitizeImage_name_and_tag.
  destruct (name_and_tag_piece image) as (prefix & suffix & E & Hp & Hs).
  split; [now exists prefix, suffix|].
  rewrite E at 2. rewrite !length_append. lia.
Qed.

(** ** The inner command of the micro-VM tier *)

Section InnerCommand.

Context {collaborators : Collaborators}.

(** X3: the command for the micro-VM tier always has five tokens, the
    inner command being the last one, and carries neither directory nor
    environment of its own.  Without environment assignments the inner
    command has no assignment before the command; without a working
    directory it has no [cd] clause. *)
Theorem formatFirecrackerCommand_edge_cases
        (spec : CommandSpec.t) (name : string) (options : Options.t) :
  let raw := formatRawOrDockerCommand spec firecrackerContainerDir options in
  let c := formatFirecrackerCommand spec name options in
  let words := shellquote_Join (command.Command raw) in
  (exists inner, command.Command c = ["ignite"; "exec"; name; "--"; inner])
  /\ command.Dir c = "" /\ command.Env c = []
  /\ command.Key c = CommandSpec.Key spec
  /\ (command.Env raw = [] -> command.Dir raw = "" -> last_token c = words)
  /\ (command.Env raw = [] -> command.Dir raw <> "" ->
      last_token c = ("cd " ++ command.Dir raw ++ " && " ++ words)%string)
  /\ (command.Env raw <> [] -> command.Dir raw = "" ->
      last_token c
      = (GoString.Join (quoteEnv (command.Env raw)) " " ++ " " ++ words)%string).
Proof.
  intros raw c words.
  split; [eexists; reflexivity|].
  split; [reflexivity|]. split; [reflexivity|]. split; [reflexivity|].
  unfold c, last_token, formatFirecrackerCommand. fold raw. fold words.
  cbn [command.Command last].
  split; [|split].
  - intros -> ->. reflexivity.
  - intros -> Hd. cbn [List.length Nat.ltb Nat.leb].
    now rewrite (eqb_nonempty _ Hd).
  - intros He ->. now rewrite (length_nonempty _ He).
Qed.

End InnerCommand.

Lemma formatFirecrackerCommand_edge_cases_witness :
  last_token
    (@formatFirecrackerCommand reference_collaborators
       (Reference.spec "" ["ls"; "-l"; "my dir"] "" [])
       "vm1" (Reference.options true "img" "kernel" "" ""))
  = "cd /work && ls -l 'my dir'".
Proof.
  apply (@formatFirecrackerCommand_edge_cases reference_collaborators
           (Reference.spec "" ["ls"; "-l"; "my dir"] "" [])
           "vm1" (Reference.options true "img" "kernel" "" "")).
  - reflexivity.
  - vm_compute. discriminate.
Defined.

(** ** The life of a Firecracker runner *)

Section RunnerLife.

Context {collaborators : Collaborators}.
Variable host : Host.

Lemma firecrackerRunner_Setup_steps (r : firecrackerRunner.t) (h : list call) :
  Setup (Runner := firecrackerRunner_Runner host) r h
  = match outcome host h mkdirTempCall with
    | Some e =>
        ((r, Some (ErrWrap e "failed to create tmp dir for firecracker runner")),
         h ++ [mkdirTempCall])
    | None =>
        let dir := tempname host h in
        let (err, h2) :=
          setupFirecracker host (defaultRunner host)
            (firecrackerRunner.logger r) (firecrackerRunner.name r)
            (firecrackerRunner.workspaceDevice r) dir
            (firecrackerRunner.options r) (firecrackerRunner.operations r)
            (h ++ [mkdirTempCall]) in
        ((firecrackerRunner.set_tmpDir r dir, err), h2)
    end.
Proof.
  cbn [Setup firecrackerRunner_Runner].
  unfold bind, ret, os_MkdirTemp, mkdirTempCall.
  destruct (outcome host h _); cbn [fst snd errors_Wrap]; [reflexivity|].
  cbn [firecrackerRunner.set_tmpDir firecrackerRunner.logger
       firecrackerRunner.name firecrackerRunner.workspaceDevice
       firecrackerRunner.tmpDir firecrackerRunner.options
       firecrackerRunner.operations].
  destruct (setupFirecracker _ _ _ _ _ _ _ _ _). reflexivity.
Qed.

Lemma teardownFirecracker_history (logger : Logger) (name tmpDir : string)
      (operations : Operations.t) (h : list call) :
  exists mid tail,
    teardownFirecracker host (defaultRunner host) logger name tmpDir
                        operations h
    = (None,
       h ++ RunCommandCall (removeCommand name operations) logger
         :: mid ++ OsRemoveAll tmpDir :: tail)
    /\ forallb is_log mid = true
    /\ forallb is_log tail = true.
Proof.
  unfold teardownFirecracker, bind, ret, perform, log15_Error.
  rewrite defaultRunner_RunCommand.
  destruct (outcome host h _) as [e1|].
  - destruct (outcome host _ (OsRemoveAll tmpDir)) as [e2|];
      eexists [_], _; rewrite <- !app_assoc; cbn [app];
      (split; [reflexivity|]); split; reflexivity.
  - destruct (outcome host _ (OsRemoveAll tmpDir)) as [e2|];
      exists [];  eexists; rewrite <- !app_assoc; cbn [app];
      (split; [reflexivity|]); split; reflexivity.
Qed.

(** The file that Setup asks the host to create, if any. *)
Lemma setup_created_path (logger : Logger)
      (name workspaceDevice tmpDir : string) (options : Options.t)
      (operations : Operations.t) (h : list call) :
  exists new,
    snd (setupFirecracker host (defaultRunner host) logger name
                          workspaceDevice tmpDir options operations h)
    = h ++ new
    /\ forall p, In (OsCreate p) new ->
                 p = path_Join [tmpDir; "docker-daemon.json"].
Proof.
  destruct (setup_requests host logger name workspaceDevice tmpDir options
                           operations h)
    as (files & runs & Hs & Hr & Hnone & Hsome). cbv zeta in *.
  exists (files ++ runs). split; [exact Hs|].
  intros p Hin. apply in_app_or in Hin as [Hin | Hin].
  - destruct (String.eqb_spec
                (FirecrackerOptions.DockerRegistryMirrorAddress
                   (Options.FirecrackerOptions options)) "") as [E | E].
    + rewrite (Hnone E) in Hin. destruct Hin.
    + rewrite (Hsome E) in Hin.
      destruct (outcome host h _); cbn [In] in Hin;
        intuition (try discriminate; congruence).
  - pose proof (not_file_request_in _ _ Hr Hin) as F. discriminate.
Qed.

(** X4: when the temporary directory cannot be created, Setup of the
    Firecracker runner stops there: it returns that error wrapped with
    its context, leaves the runner as it was, and asks the host for
    nothing else: no daemon config, no VM. *)
Theorem firecrackerRunner_Setup_mkdir_failure
        (r : firecrackerRunner.t) (h : list call) (e : error) :
  outcome host h mkdirTempCall = Some e ->
  Setup (Runner := firecrackerRunner_Runner host) r h
  = ((r, Some (ErrWrap e "failed to create tmp dir for firecracker runner")),
     h ++ [OsMkdirTemp "" "executor-firecracker-runner"]).
Proof.
  intros He. rewrite firecrackerRunner_Setup_steps, He. reflexivity.
Qed.

(** X5: when the temporary directory is created, Setup records it in
    the runner whether or not the steps after it succeed, and changes no
    other field; the daemon config file, when one is created, is
    docker-daemon.json in that directory; and the error returned is the
    one of setupFirecracker, with no further context. *)
Theorem firecrackerRunner_Setup_records_tmpDir
        (r : firecrackerRunner.t) (h : list call) :
  outcome host h mkdirTempCall = None ->
  let dir := tempname host h in
  exists err new,
    Setup (Runner := firecrackerRunner_Runner host) r h
    = (({| firecrackerRunner.name := firecrackerRunner.name r;
           firecrackerRunner.workspaceDevice :=
             firecrackerRunner.workspaceDevice r;
           firecrackerRunner.logger := firecrackerRunner.logger r;
           firecrackerRunner.options := firecrackerRunner.options r;
           firecrackerRunner.tmpDir := dir;
           firecrackerRunner.operations := firecrackerRunner.operations r |},
        err),
       h ++ OsMkdirTemp "" "executor-firecracker-runner" :: new)
    /\ (forall p, In (OsCreate p) new ->
                  p = path_Join [dir; "docker-daemon.json"])
    /\ err = fst (setupFirecracker host (defaultRunner host)
                    (firecrackerRunner.logger r) (firecrackerRunner.name r)
                    (firecrackerRunner.workspaceDevice r) dir
                    (firecrackerRunner.options r)
                    (firecrackerRunner.operations r)
                    (h ++ [mkdirTempCall])).
Proof.
  intros Hm dir. rewrite firecrackerRunner_Setup_steps, Hm. cbv zeta.
  fold dir.
  destruct (setup_created_path (firecrackerRunner.logger r)
              (firecrackerRunner.name r) (firecrackerRunner.workspaceDevice r)
              dir (firecrackerRunner.options r)
              (firecrackerRunner.operations r) (h ++ [mkdirTempCall]))
    as (new & Hs & Hp).
  destruct (setupFirecracker _ _ _ _ _ _ _ _ _) as [err h2].
  cbn [snd fst] in *. subst h2.
  exists err, new. rewrite <- app_assoc.
  split; [reflexivity|]. split; [exact Hp | reflexivity].
Qed.

Lemma firecrackerRunner_Setup_fields (r : firecrackerRunner.t)
      (h : list call) :
  let r1 := fst (fst (Setup (Runner := firecrackerRunner_Runner host) r h)) in
  firecrackerRunner.name r1 = firecrackerRunner.name r
  /\ firecrackerRunner.options r1 = firecrackerRunner.options r
  /\ firecrackerRunner.logger r1 = firecrackerRunner.logger r.
Proof.
  cbv zeta. rewrite firecrackerRunner_Setup_steps.
  destruct (outcome host h mkdirTempCall); cbv zeta;
    [now repeat split|].
  destruct (setupFirecracker _ _ _ _ _ _ _ _ _). now repeat split.
Qed.

(** X6: Run of the Firecracker runner keeps no account of Setup: on the
    runner as Setup leaves it, successful or failed, it makes the one
    request it makes on the runner before Setup, the exec invocation for
    the runner's VM name, and returns the error of the execution
    primitive as it is, without context. *)
Theorem firecrackerRunner_Run_any_state
        (r : firecrackerRunner.t) (spec : CommandSpec.t) (h h' : list call) :
  let r1 := fst (fst (Setup (Runner := firecrackerRunner_Runner host) r h)) in
  let c := formatFirecrackerCommand spec (firecrackerRunner.name r)
                                    (firecrackerRunner.options r) in
  let request := RunCommandCall c (firecrackerRunner.logger r) in
  Run (Runner := firecrackerRunner_Runner host) r spec h'
  = ((r, outcome host h' request), h' ++ [request])
  /\ Run (Runner := firecrackerRunner_Runner host) r1 spec h'
     = ((r1, outcome host h' request), h' ++ [request])
  /\ exists inner,
      command.Command c
      = ["ignite"; "exec"; firecrackerRunner.name r; "--"; inner].
Proof.
  intros r1 c request.
  split; [reflexivity|]. split; [|eexists; reflexivity].
  destruct (firecrackerRunner_Setup_fields r h) as (Hn & Ho & Hl).
  fold r1 in Hn, Ho, Hl.
  cbn [Run firecrackerRunner_Runner]. unfold bind, ret, runCommand, perform.
  unfold request, c. now rewrite Hn, Ho, Hl.
Qed.

(** X7: for the runner that NewRunner makes with Firecracker enabled,
    Teardown after Setup cleans up what Setup made, whatever the outcome
    of Setup: it asks for the removal of the VM named after the executor
    and of the directory recorded by Setup (the empty path when the
    directory could not be created), in this order, logs failures, and
    returns nil. *)
Theorem teardown_after_setup (dir : string) (logger : Logger)
        (options : Options.t) (operations : Operations.t) (h : list call) :
  FirecrackerOptions.Enabled (Options.FirecrackerOptions options) = true ->
  let r0 := NewRunner dir logger options operations in
  let tmp := match outcome host h mkdirTempCall with
             | None => tempname host h
             | Some _ => ""
             end in
  exists f1 err h1 mid tail,
    Setup (Runner := runner_Runner host) r0 h
    = ((FirecrackerRunner f1, err), h1)
    /\ firecrackerRunner.tmpDir f1 = tmp
    /\ Teardown (Runner := runner_Runner host) (FirecrackerRunner f1) h1
       = ((FirecrackerRunner f1, None),
          h1 ++ RunCommandCall
                  (removeCommand (Options.ExecutorName options) operations)
                  logger
             :: mid ++ OsRemoveAll tmp :: tail)
    /\ command.Command
         (removeCommand (Options.ExecutorName options) operations)
       = ["ignite"; "rm"; "-f"; Options.ExecutorName options]
    /\ forallb is_log mid = true
    /\ forallb is_log tail = true.
Proof.
  intros Hon r0 tmp. unfold r0, NewRunner. rewrite Hon. cbn [negb].
  set (f0 := {| firecrackerRunner.name := Options.ExecutorName options;
                firecrackerRunner.workspaceDevice := dir;
                firecrackerRunner.logger := logger;
                firecrackerRunner.options := options;
                firecrackerRunner.tmpDir := "";
                firecrackerRunner.operations := operations |}).
  cbn [Setup Teardown runner_Runner]. unfold lift, bind, ret.
  rewrite firecrackerRunner_Setup_steps. unfold tmp.
  assert (T : forall f h1,
             firecrackerRunner.name f = Options.ExecutorName options ->
             firecrackerRunner.logger f = logger ->
             firecrackerRunner.operations f = operations ->
             exists mid tail,
               (let (a, h') :=
                  Teardown (Runner := firecrackerRunner_Runner host) f h1 in
                (FirecrackerRunner (fst a), snd a, h'))
               = ((FirecrackerRunner f, None),
                  h1 ++ RunCommandCall
                          (removeCommand (Options.ExecutorName options)
                                         operations) logger
                     :: mid ++ OsRemoveAll (firecrackerRunner.tmpDir f) :: tail)
               /\ forallb is_log mid = true /\ forallb is_log tail = true).
  { intros f h1 Hn Hl Ho. cbn [Teardown firecrackerRunner_Runner].
    unfold bind, ret. rewrite Hn, Hl, Ho.
    destruct (teardownFirecracker_history logger
                (Options.ExecutorName options) (firecrackerRunner.tmpDir f)
                operations h1) as (mid & tail & E & Hmid & Htail).
    rewrite E. now exists mid, tail. }
  destruct (outcome host h mkdirTempCall) as [e|].
  - destruct (T f0 (h ++ [mkdirTempCall]) eq_refl eq_refl eq_refl)
      as (mid & tail & E & Hmid & Htail).
    exists f0, (Some (ErrWrap e "failed to create tmp dir for firecracker runner")),
      (h ++ [mkdirTempCall]), mid, tail.
    cbn [fst snd]. split; [reflexivity|]. split; [reflexivity|].
    split; [exact E|]. split; [reflexivity|]. now split.
  - cbv zeta.
    destruct (setupFirecracker _ _ _ _ _ _ _ _ _) as [err h1].
    cbn [fst snd].
    destruct (T (firecrackerRunner.set_tmpDir f0 (tempname host h)) h1
                eq_refl eq_refl eq_refl)
      as (mid & tail & E & Hmid & Htail).
    exists (firecrackerRunner.set_tmpDir f0 (tempname host h)), err, h1,
      mid, tail.
    split; [reflexivity|]. split; [reflexivity|].
    split; [exact E|]. split; [reflexivity|]. now split.
Qed.


(** X9: newDockerDaemonConfig closes the file it created on every path:
    when the file cannot be created it asks for nothing more and returns
    no path; once the file is created it asks for the write and then,
    whether or not the write failed, for the close, exactly once, and it
    returns the path of the file also when it returns an error; it
    returns nil when the write and the close both succeed. *)
Theorem newDockerDaemonConfig_closes_file (tmpDir mirrorAddress : string)
        (h : list call) :
  let name := path_Join [tmpDir; "docker-daemon.json"] in
  let content := daemon_config_content mirrorAddress in
  let write := OsWriteFile name content os_ModePerm in
  let result := newDockerDaemonConfig host tmpDir mirrorAddress h in
  (forall e,
      outcome host h (OsCreate name) = Some e ->
      result
      = (("", Some (ErrWrap e "creating temp file for docker daemon config")),
         h ++ [OsCreate name]))
  /\ (outcome host h (OsCreate name) = None ->
      snd result = h ++ [OsCreate name; write; FileClose name]
      /\ fst (fst result) = name
      /\ (outcome host (h ++ [OsCreate name]) write = None ->
          outcome host (h ++ [OsCreate name; write]) (FileClose name) = None ->
          snd (fst result) = None)
      /\ (forall e,
             outcome host (h ++ [OsCreate name]) write = Some (ErrNew e) ->
             snd (fst result) <> None)).
Proof.
  intros name content write result. unfold result.
  rewrite newDockerDaemonConfig_steps. cbv zeta.
  unfold dockerDaemonConfigFilename. fold name content write.
  split.
  - intros e ->. reflexivity.
  - intros ->. cbn [fst snd]. rewrite <- !app_assoc. cbn [app].
    split; [reflexivity|]. split; [reflexivity|]. split.
    + intros -> ->. reflexivity.
    + intros e ->. unfold errors_Append. cbn [errors_of app]. discriminate.
Qed.

(** X10: setupFirecracker returns nil exactly when none of the steps it
    ran failed: the daemon config step, the start invocation and, when a
    startup script is configured, the invocation of the script. *)
Theorem setupFirecracker_nil_iff (runner : commandRunner) (logger : Logger)
        (name workspaceDevice tmpDir : string) (options : Options.t)
        (operations : Operations.t) (h : list call) :
  let script :=
    FirecrackerOptions.VMStartupScriptPath
      (Options.FirecrackerOptions options) in
  fst (setupFirecracker host runner logger name workspaceDevice tmpDir
                        options operations h) = None
  <-> exists daemonConfigFile h1 h2,
      daemonConfigStep host tmpDir options h = ((daemonConfigFile, None), h1)
      /\ RunCommand (startCommand name workspaceDevice daemonConfigFile
                                  options operations) logger h1
         = (None, h2)
      /\ (script = ""
          \/ fst (RunCommand (startupScriptCommand name options operations)
                             logger h2) = None).
Proof.
  intros script. rewrite setupFirecracker_steps. fold script.
  destruct (daemonConfigStep host tmpDir options h) as [[dcf [e|]] h1];
    cbn [fst snd].
  - split; [discriminate|]. intros (d & x & y & [=] & _).
  - destruct (RunCommand _ logger h1) as [[e|] h2] eqn:Es.
    + split; [discriminate|].
      intros (d & x & y & [= <- <-] & Hs & _). congruence.
    + destruct (String.eqb_spec script "") as [E | E]; cbn [negb].
      * split; [|reflexivity]. intros _.
        exists dcf, h1, h2. split; [reflexivity|]. split; [exact Es | now left].
      * destruct (RunCommand _ logger h2) as [[e|] h3] eqn:Ex.
        -- split; [discriminate|].
           intros (d & x & y & [= <- <-] & Hs & [Hn | Hn]); [congruence|].
           rewrite Es in Hs. injection Hs as <-.
           rewrite Ex in Hn. discriminate.
        -- split; [|reflexivity]. intros _.
           exists dcf, h1, h2. split; [reflexivity|].
           split; [exact Es|]. right. now rewrite Ex.
Qed.

(** X11: on every path, what setupFirecracker asks of the host is the
    file requests of the daemon config step followed by at most two
    invocations, the start command and then the startup script, the
    latter only when a script is configured; in particular it never asks
    for a removal and never logs. *)
Theorem setupFirecracker_requests (logger : Logger)
        (name workspaceDevice tmpDir : string) (options : Options.t)
        (operations : Operations.t) (h : list call) :
  let script :=
    FirecrackerOptions.VMStartupScriptPath
      (Options.FirecrackerOptions options) in
  let config := daemonConfigStep host tmpDir options h in
  let start :=
    RunCommandCall (startCommand name workspaceDevice (fst (fst config))
                                 options operations) logger in
  let startup :=
    RunCommandCall (startupScriptCommand name options operations) logger in
  exists files runs,
    snd config = h ++ files
    /\ forallb is_file_request files = true
    /\ snd (setupFirecracker host (defaultRunner host) logger name
                             workspaceDevice tmpDir options operations h)
       = h ++ files ++ runs
    /\ (runs = [] \/ runs = [start] \/ (script <> "" /\ runs = [start; startup]))
    /\ (snd (fst config) <> None -> runs = []).
Proof.
  intros script config start startup.
  destruct (daemonConfigStep_history host tmpDir options h)
    as (files & Hh & Hf).
  fold config in Hh. exists files.
  rewrite setupFirecracker_steps. fold config. fold script.
  unfold start. clear start.
  destruct config as [[dcf [e|]] h1]; cbn [fst snd] in *; subst h1.
  - exists []. rewrite app_nil_r. repeat split; auto.
  - rewrite defaultRunner_RunCommand.
    destruct (outcome host _ _).
    + eexists [_]. cbn [snd]. rewrite <- app_assoc.
      repeat split; auto. congruence.
    + destruct (String.eqb_spec script "") as [E | E]; cbn [negb].
      * eexists [_]. cbn [snd]. rewrite <- app_assoc.
        repeat split; auto. congruence.
      * rewrite defaultRunner_RunCommand. eexists [_; _].
        split; [reflexivity|]. split; [exact Hf|].
        split; [destruct (outcome host _ _); cbn [snd];
                now rewrite <- !app_assoc|].
        split; [right; right; now split | congruence].
Qed.

(** X12: with a registry mirror configured, the daemon config that the
    start command copies to /etc/docker/daemon.json is the file that
    Setup created and wrote just before; and when the write fails, Setup
    closes the file and stops without starting the VM. *)
Theorem setup_copies_written_config (logger : Logger)
        (name workspaceDevice tmpDir : string) (options : Options.t)
        (operations : Operations.t) (h : list call) :
  let fo := Options.FirecrackerOptions options in
  let mirror := FirecrackerOptions.DockerRegistryMirrorAddress fo in
  let path := path_Join [tmpDir; "docker-daemon.json"] in
  let write := OsWriteFile path (daemon_config_content mirror) os_ModePerm in
  let files := [OsCreate path; write; FileClose path] in
  let start :=
    startCommand name workspaceDevice path options operations in
  let setup :=
    setupFirecracker host (defaultRunner host) logger name workspaceDevice
                     tmpDir options operations h in
  mirror <> "" ->
  path <> "" ->
  outcome host h (OsCreate path) = None ->
  (outcome host (h ++ [OsCreate path]) write = None ->
   outcome host (h ++ [OsCreate path; write]) (FileClose path) = None ->
   exists rest before after pairs,
     snd setup = h ++ files ++ RunCommandCall start logger :: rest
     /\ command.Command start
        = before ++ intersperse "--copy-files" pairs ++ after
     /\ In (path ++ ":" ++ "/etc/docker/daemon.json")%string pairs)
  /\ (forall e,
         outcome host (h ++ [OsCreate path]) write = Some (ErrNew e) ->
         snd setup = h ++ files /\ fst setup <> None).
Proof.
  intros fo mirror path write files start setup Hm Hp Hc.
  unfold setup. rewrite setupFirecracker_steps.
  unfold daemonConfigStep. fold fo. fold mirror.
  rewrite (eqb_nonempty _ Hm), newDockerDaemonConfig_steps. cbv zeta.
  unfold dockerDaemonConfigFilename. fold path. fold write. rewrite Hc.
  assert (Hh : ((h ++ [OsCreate path]) ++ [write]) ++ [FileClose path]
               = h ++ files) by now rewrite <- !app_assoc.
  assert (Hw : (h ++ [OsCreate path]) ++ [write] = h ++ [OsCreate path; write])
    by now rewrite <- !app_assoc.
  rewrite Hh, Hw. split.
  - intros -> ->. cbn [errors_Append errors_of app fst snd].
    rewrite defaultRunner_RunCommand. fold start.
    assert (Hs : exists rest,
               snd (match outcome host (h ++ files)
                                  (RunCommandCall start logger) with
                    | Some e =>
                        (Some (ErrWrap e "failed to start firecracker vm"),
                         (h ++ files) ++ [RunCommandCall start logger])
                    | None =>
                        if negb (String.eqb
                                   (FirecrackerOptions.VMStartupScriptPath
                                      (Options.FirecrackerOptions options)) "")
                        then
                          let (err', h3) :=
                            @RunCommand (defaultRunner host)
                              (startupScriptCommand name options operations)
                              logger
                              ((h ++ files) ++ [RunCommandCall start logger]) in
                          match err' with
                          | Some e =>
                              (Some (ErrWrap e "failed to run startup script"),
                               h3)
                          | None => (None, h3)
                          end
                        else
                          (None, (h ++ files) ++ [RunCommandCall start logger])
                    end)
               = h ++ files ++ RunCommandCall start logger :: rest).
    { destruct (outcome host (h ++ files) _).
      - exists []. cbn [snd]. now rewrite <- app_assoc.
      - destruct (negb _).
        + rewrite defaultRunner_RunCommand. eexists [_].
          destruct (outcome host ((h ++ files) ++ _) _); cbn [snd];
            now rewrite <- !app_assoc.
        + exists []. cbn [snd]. now rewrite <- app_assoc. }
    destruct Hs as [rest Hs]. exists rest.
    eexists _, _,
      (sort_Strings
         (copyfiles (FirecrackerOptions.VMStartupScriptPath fo) path)).
    split; [exact Hs|].
    split; [unfold start; rewrite startCommand_tokens; reflexivity|].
    apply (Permutation_in _
             (Permutation_sym (SortFacts.sort_Strings_perm _))).
    unfold copyfiles. rewrite (eqb_nonempty _ Hp).
    apply in_or_app. right. now left.
  - intros e ->. unfold errors_Append. cbn [errors_of app].
    cbn [fst snd]. split; [reflexivity | discriminate].
Qed.

End RunnerLife.

Lemma firecrackerRunner_Setup_mkdir_failure_witness :
  Setup (Runner := @firecrackerRunner_Runner reference_collaborators
                     (Reference.failing_host is_mkdirTemp
                                             (ErrNew "no space left on device")))
        (fresh_runner (Reference.options true "img" "kernel" "/opt/startup.sh"
                                         "http://mirror.local")) []
  = ((fresh_runner (Reference.options true "img" "kernel" "/opt/startup.sh"
                                      "http://mirror.local"),
      Some (ErrWrap (ErrNew "no space left on device")
                    "failed to create tmp dir for firecracker runner")),
     [OsMkdirTemp "" "executor-firecracker-runner"]).
Proof.
  apply (@firecrackerRunner_Setup_mkdir_failure reference_collaborators
           (Reference.failing_host is_mkdirTemp
                                   (ErrNew "no space left on device"))
           (fresh_runner (Reference.options true "img" "kernel"
                                            "/opt/startup.sh"
                                            "http://mirror.local")) []).
  reflexivity.
Defined.

Lemma firecrackerRunner_Setup_records_tmpDir_witness :
  firecrackerRunner.tmpDir
    (fst (fst (Setup (Runner := @firecrackerRunner_Runner
                                  reference_collaborators
                                  (Reference.failing_host
                                     (Reference.has_key "setup.firecracker.start")
                                     (ErrNew "exit status 1")))
                     (fresh_runner (Reference.options true "img" "kernel" ""
                                                      "http://mirror.local"))
                     [])))
  = "/tmp/executor-firecracker-runner1".
Proof.
  destruct (@firecrackerRunner_Setup_records_tmpDir reference_collaborators
              (Reference.failing_host
                 (Reference.has_key "setup.firecracker.start")
                 (ErrNew "exit status 1"))
              (fresh_runner (Reference.options true "img" "kernel" ""
                                               "http://mirror.local"))
              [] eq_refl) as (err & new & E & _).
  rewrite E. reflexivity.
Defined.

Lemma teardown_after_setup_witness :
  exists f1 err h1 mid tail,
    Setup (Runner := @runner_Runner reference_collaborators
                       Reference.quiet_host)
          (NewRunner "/dev/loop0" Reference.logger
                     (Reference.options true "img" "kernel" "" "")
                     Reference.operations) []
    = ((FirecrackerRunner f1, err), h1)
    /\ firecrackerRunner.tmpDir f1 = "/tmp/executor-firecracker-runner1"
    /\ Teardown (Runner := @runner_Runner reference_collaborators
                             Reference.quiet_host)
                (FirecrackerRunner f1) h1
       = ((FirecrackerRunner f1, None),
          h1 ++ RunCommandCall (removeCommand "vm1" Reference.operations)
                               Reference.logger
             :: mid ++ OsRemoveAll "/tmp/executor-firecracker-runner1" :: tail).
Proof.
  destruct (@teardown_after_setup reference_collaborators Reference.quiet_host
              "/dev/loop0" Reference.logger
              (Reference.options true "img" "kernel" "" "")
              Reference.operations [] eq_refl)
    as (f1 & err & h1 & mid & tail & E1 & E2 & E3 & _).
  exists f1, err, h1, mid, tail.
  split; [exact E1|]. split; [exact E2 | exact E3].
Defined.


Lemma setup_copies_written_config_witness :
  exists rest,
    snd (@setupFirecracker reference_collaborators Reference.quiet_host
           (defaultRunner Reference.quiet_host) Reference.logger
           "vm1" "/dev/loop0" "/tmp/x"
           (Reference.options true "img" "kernel" "" "http://mirror.local")
           Reference.operations [])
    = [OsCreate "/tmp/x/docker-daemon.json";
       OsWriteFile "/tmp/x/docker-daemon.json" mirror_local_config os_ModePerm;
       FileClose "/tmp/x/docker-daemon.json"]
      ++ RunCommandCall
           (@startCommand reference_collaborators "vm1" "/dev/loop0"
              "/tmp/x/docker-daemon.json"
              (Reference.options true "img" "kernel" "" "http://mirror.local")
              Reference.operations) Reference.logger
      :: rest.
Proof.
  pose proof (@setup_copies_written_config reference_collaborators
                Reference.quiet_host Reference.logger
                "vm1" "/dev/loop0" "/tmp/x"
                (Reference.options true "img" "kernel" ""
                                   "http://mirror.local")
                Reference.operations []) as H.
  cbv zeta in H.
  destruct H as [H _].
  - discriminate.
  - vm_compute. discriminate.
  - reflexivity.
  - destruct H as (rest & _ & _ & _ & E & _).
    + reflexivity.
    + reflexivity.
    + exists rest. exact E.
Defined.

Lemma newDockerDaemonConfig_closes_file_witness :
  snd (@newDockerDaemonConfig reference_collaborators
         (Reference.failing_host Reference.is_write
                                 (ErrNew "no space left on device"))
         "/tmp/x" "http://mirror.local" [])
  = [OsCreate "/tmp/x/docker-daemon.json";
     OsWriteFile "/tmp/x/docker-daemon.json" mirror_local_config os_ModePerm;
     FileClose "/tmp/x/docker-daemon.json"]
  /\ snd (fst (@newDockerDaemonConfig reference_collaborators
                 (Reference.failing_host Reference.is_write
                                         (ErrNew "no space left on device"))
                 "/tmp/x" "http://mirror.local" []))
     <> None.
Proof.
  pose proof (@newDockerDaemonConfig_closes_file reference_collaborators
                (Reference.failing_host Reference.is_write
                                        (ErrNew "no space left on device"))
                "/tmp/x" "http://mirror.local" []) as H.
  cbv zeta in H. destruct H as [_ H].
  destruct (H eq_refl) as (Hh & _ & _ & He).
  split; [exact Hh|].
  apply (He "no space left on device"). reflexivity.
Defined.
